(** * DiscourseMatrix: the Matrix relay of [src/app.py]

    A shallow embedding of the Flask view function [proxy] and of the
    values of Python, Werkzeug and requests it consumes, followed by the
    properties of the relay.

    Conventions.
    - A Python [str] that names or carries an HTTP header, a method or a
      URL is a Rocq [string]; the case methods ([lower], [upper],
      [title]) act on the ASCII letters, which is all an HTTP field name
      can hold.
    - Decoded text ([bytes.decode], [resp.text]) is a list of code points.
    - A Python [dict] is an association list in insertion order.
    - [print] appends one entry to [stdout]; [requests.request] appends
      its arguments to [sent] and asks the [upstream] of the world for
      the answer; an exception ends the run with [Raise]. *)

From Stdlib Require Import String Ascii List Bool Arith ZArith NArith Lia.
From Stdlib Require Import Strings.Byte DecimalString.
Import ListNotations.

Local Open Scope string_scope.
Local Open Scope list_scope.

(* ================================================================= *)
(** ** Python built-ins *)

Module Py.

(** *** str *)

Definition is_upper (c : ascii) : bool :=
  (65 <=? nat_of_ascii c)%nat && (nat_of_ascii c <=? 90)%nat.

Definition is_lower (c : ascii) : bool :=
  (97 <=? nat_of_ascii c)%nat && (nat_of_ascii c <=? 122)%nat.

Definition is_cased (c : ascii) : bool := is_upper c || is_lower c.

Definition chr_lower (c : ascii) : ascii :=
  if is_upper c then ascii_of_nat (nat_of_ascii c + 32) else c.

Definition chr_upper (c : ascii) : ascii :=
  if is_lower c then ascii_of_nat (nat_of_ascii c - 32) else c.

Fixpoint str_map (f : ascii -> ascii) (s : string) : string :=
  match s with
  | EmptyString => EmptyString
  | String c r => String (f c) (str_map f r)
  end.

(** [s.lower()] and [s.upper()]. *)
Definition lower : string -> string := str_map chr_lower.
Definition upper : string -> string := str_map chr_upper.

(** [s.title()]: a letter that follows a cased character is lowered,
    any other letter is raised. *)
Fixpoint title_from (previous_is_cased : bool) (s : string) : string :=
  match s with
  | EmptyString => EmptyString
  | String c r =>
      String (if previous_is_cased then chr_lower c else chr_upper c)
             (title_from (is_cased c) r)
  end.

Definition title : string -> string := title_from false.

(** [s.replace(old, new)] for one-character [old] and [new]. *)
Definition replace (old new : ascii) : string -> string :=
  str_map (fun c => if Ascii.eqb c old then new else c).

(** [s.startswith(p)]. *)
Definition startswith (s p : string) : bool := String.prefix p s.

(** [s[n:]]. *)
Fixpoint slice_from (n : nat) (s : string) : string :=
  match n, s with
  | O, _ => s
  | S _, EmptyString => EmptyString
  | S m, String _ r => slice_from m r
  end.

(** [x in l] for a list (or a set literal) of strings. *)
Definition str_in (x : string) (l : list string) : bool :=
  existsb (String.eqb x) l.

(** [str(n)] for an [int]. *)
Definition str_of_int (n : Z) : string := NilZero.string_of_int (Z.to_int n).

(** *** Text: a [str] as its code points *)

Definition text := list N.

Definition text_of (s : string) : text :=
  map N_of_ascii (list_ascii_of_string s).

(** *** bytes *)

Definition bytes := list byte.

Definition is_continuation (b : byte) : bool :=
  (128 <=? Byte.to_N b)%N && (Byte.to_N b <? 192)%N.

Definition low6 (b : byte) : N := N.land (Byte.to_N b) 63.

(** The length of the sequence a byte begins, [0] where it begins none. *)
Definition width (b0 : byte) : nat :=
  let ch := Byte.to_N b0 in
  if (ch <? 128)%N then 1
  else if (ch <? 194)%N then 0
  else if (ch <? 224)%N then 2
  else if (ch <? 240)%N then 3
  else if (ch <? 245)%N then 4
  else 0.

(** The second byte of a sequence: a continuation byte, and none that
    makes the sequence overlong, a surrogate or too large. *)
Definition second_ok (b0 b1 : byte) : bool :=
  let ch := Byte.to_N b0 in
  let ch2 := Byte.to_N b1 in
  is_continuation b1
  && negb (if (ch <? 224)%N then false
           else if (ch <? 240)%N
                then (if (ch2 <? 160)%N then (ch =? 224)%N else (ch =? 237)%N)
                else (if (ch2 <? 144)%N then (ch =? 240)%N else (ch =? 244)%N)).

Definition point2 (b0 b1 : byte) : N :=
  N.shiftl (N.land (Byte.to_N b0) 31) 6 + low6 b1.

Definition point3 (b0 b1 b2 : byte) : N :=
  N.shiftl (N.land (Byte.to_N b0) 15) 12 + N.shiftl (low6 b1) 6 + low6 b2.

Definition point4 (b0 b1 b2 b3 : byte) : N :=
  N.shiftl (N.land (Byte.to_N b0) 7) 18 + N.shiftl (low6 b1) 12
  + N.shiftl (low6 b2) 6 + low6 b3.

(** [b.decode("utf-8", errors="ignore")], after CPython's UTF-8
    decoder ([unicode_decode_utf8] and [utf8_decode]).  The decoder reads
    one sequence at a time; where it reports an error the [ignore] handler
    skips the bytes of the error range and decoding resumes behind them:
    one byte for an invalid start byte, the bytes read so far for an
    invalid continuation byte, everything that is left for a sequence
    cut off by the end of the data. *)
Fixpoint decode_utf8_ignore (s : bytes) : text :=
  match s with
  | [] => []
  | b0 :: r0 =>
    match width b0 with
    | 1 => Byte.to_N b0 :: decode_utf8_ignore r0
    | 2 =>
      match r0 with
      | [] => []
      | b1 :: r1 =>
        if second_ok b0 b1 then point2 b0 b1 :: decode_utf8_ignore r1
        else decode_utf8_ignore r0
      end
    | 3 =>
      match r0 with
      | [] => []
      | b1 :: r1 =>
        if second_ok b0 b1 then
          match r1 with
          | [] => []
          | b2 :: r2 =>
            if is_continuation b2
            then point3 b0 b1 b2 :: decode_utf8_ignore r2
            else decode_utf8_ignore r1
          end
        else decode_utf8_ignore r0
      end
    | 4 =>
      match r0 with
      | [] => []
      | b1 :: r1 =>
        if second_ok b0 b1 then
          match r1 with
          | [] => []
          | b2 :: r2 =>
            if is_continuation b2 then
              match r2 with
              | [] => []
              | b3 :: r3 =>
                if is_continuation b3
                then point4 b0 b1 b2 b3 :: decode_utf8_ignore r3
                else decode_utf8_ignore r2
              end
            else decode_utf8_ignore r1
          end
        else decode_utf8_ignore r0
      end
    | _ => decode_utf8_ignore r0
    end
  end.

(** [b.decode("utf-8")], with the default [errors="strict"]: [None]
    where Python raises [UnicodeDecodeError]. *)
Fixpoint decode_utf8 (s : bytes) : option text :=
  match s with
  | [] => Some []
  | b0 :: r0 =>
    match width b0 with
    | 1 => option_map (cons (Byte.to_N b0)) (decode_utf8 r0)
    | 2 =>
      match r0 with
      | b1 :: r1 =>
        if second_ok b0 b1
        then option_map (cons (point2 b0 b1)) (decode_utf8 r1)
        else None
      | _ => None
      end
    | 3 =>
      match r0 with
      | b1 :: b2 :: r2 =>
        if second_ok b0 b1 && is_continuation b2
        then option_map (cons (point3 b0 b1 b2)) (decode_utf8 r2)
        else None
      | _ => None
      end
    | 4 =>
      match r0 with
      | b1 :: b2 :: b3 :: r3 =>
        if second_ok b0 b1 && is_continuation b2 && is_continuation b3
        then option_map (cons (point4 b0 b1 b2 b3)) (decode_utf8 r3)
        else None
      | _ => None
      end
    | _ => None
    end
  end.

(** The bytes the [ignore] handler does not skip. *)
Fixpoint not_ignored (s : bytes) : bytes :=
  match s with
  | [] => []
  | b0 :: r0 =>
    match width b0 with
    | 1 => b0 :: not_ignored r0
    | 2 =>
      match r0 with
      | [] => []
      | b1 :: r1 =>
        if second_ok b0 b1 then b0 :: b1 :: not_ignored r1
        else not_ignored r0
      end
    | 3 =>
      match r0 with
      | [] => []
      | b1 :: r1 =>
        if second_ok b0 b1 then
          match r1 with
          | [] => []
          | b2 :: r2 =>
            if is_continuation b2 then b0 :: b1 :: b2 :: not_ignored r2
            else not_ignored r1
          end
        else not_ignored r0
      end
    | 4 =>
      match r0 with
      | [] => []
      | b1 :: r1 =>
        if second_ok b0 b1 then
          match r1 with
          | [] => []
          | b2 :: r2 =>
            if is_continuation b2 then
              match r2 with
              | [] => []
              | b3 :: r3 =>
                if is_continuation b3
                then b0 :: b1 :: b2 :: b3 :: not_ignored r3
                else not_ignored r2
              end
            else not_ignored r1
          end
        else not_ignored r0
      end
    | _ => not_ignored r0
    end
  end.

(** *** Exceptions and results *)

Inductive exn : Type :=
| KeyError (key : string)
| ConnectionError
| Timeout
| SSLError.

Inductive result (A : Type) : Type :=
| Return (a : A)
| Raise (e : exn).

Arguments Return {A} a.
Arguments Raise {A} e.

(** *** dict *)

Definition dict (V : Type) := list (string * V).

Definition dict_keys {V} (d : dict V) : list string := map fst d.

(** [d[k]], [None] where Python raises [KeyError]. *)
Fixpoint dict_get {V} (d : dict V) (k : string) : option V :=
  match d with
  | [] => None
  | (k', v) :: d' => if String.eqb k' k then Some v else dict_get d' k
  end.

(** [d[k] = v]: an existing key keeps its place. *)
Fixpoint dict_setitem {V} (d : dict V) (k : string) (v : V) : dict V :=
  match d with
  | [] => [(k, v)]
  | (k', v') :: d' =>
      if String.eqb k' k then (k', v) :: d'
      else (k', v') :: dict_setitem d' k v
  end.

(** [d.pop(k, None)], for the dict that is left. *)
Fixpoint dict_pop {V} (d : dict V) (k : string) : dict V :=
  match d with
  | [] => []
  | (k', v) :: d' => if String.eqb k' k then d' else (k', v) :: dict_pop d' k
  end.

(** [dict(pairs)] for a list of pairs: each pair is stored in turn. *)
Definition store {V} (d : dict V) (kv : string * V) : dict V :=
  dict_setitem d (fst kv) (snd kv).

Definition dict_of_pairs {V} (pairs : list (string * V)) : dict V :=
  fold_left store pairs [].

(** [dict(m)] for an object [m] with a [keys()] method, which is how
    a dict is built from anything but a dict or a sequence of pairs:
    each key that [m.keys()] yields is stored with [m[key]]. *)
Fixpoint dict_merge {V} (d : dict V) (keys : list string)
    (getitem : string -> result V) : result (dict V) :=
  match keys with
  | [] => Return d
  | k :: ks =>
      match getitem k with
      | Return v => dict_merge (dict_setitem d k v) ks getitem
      | Raise e => Raise e
      end
  end.

Definition dict_of_mapping {V} (keys : list string)
    (getitem : string -> result V) : result (dict V) :=
  dict_merge [] keys getitem.

End Py.

Local Open Scope char_scope.
Local Open Scope string_scope.

(* ================================================================= *)
(** ** Werkzeug: what Flask's [request] exposes *)

Module Werkzeug.

(** [request.headers] is a [werkzeug.datastructures.EnvironHeaders]: a
    read-only view of the WSGI environ, of which only the string-valued
    CGI variables matter here. *)
Record EnvironHeaders : Type := { environ : Py.dict string }.

(** One turn of [EnvironHeaders.__iter__]: the header an environ entry
    stands for, if any. *)
Definition header_of (entry : string * string) : option (string * string) :=
  let (key, value) := entry in
  if Py.startswith key "HTTP_"
     && negb (Py.str_in key ["HTTP_CONTENT_TYPE"; "HTTP_CONTENT_LENGTH"])
  then Some (Py.title (Py.replace "_" "-" (Py.slice_from 5 key)), value)
  else if Py.str_in key ["CONTENT_TYPE"; "CONTENT_LENGTH"]
          && negb (String.eqb value "")
  then Some (Py.title (Py.replace "_" "-" key), value)
  else None.

Fixpoint iter (env : Py.dict string) : list (string * string) :=
  match env with
  | [] => []
  | entry :: env' =>
      match header_of entry with
      | Some h => h :: iter env'
      | None => iter env'
      end
  end.

(** [h.items()] and [h.keys()]. *)
Definition items (h : EnvironHeaders) : list (string * string) :=
  iter (environ h).

Definition keys (h : EnvironHeaders) : list string := map fst (items h).

(** The environ key [EnvironHeaders.__getitem__] reads for [h[key]]. *)
Definition environ_key (key : string) : string :=
  let key := Py.replace "-" "_" (Py.upper key) in
  if Py.str_in key ["CONTENT_TYPE"; "CONTENT_LENGTH"] then key
  else "HTTP_" ++ key.

(** [h[key]]. *)
Definition getitem (h : EnvironHeaders) (key : string) : Py.result string :=
  match Py.dict_get (environ h) (environ_key key) with
  | Some value => Py.Return value
  | None => Py.Raise (Py.KeyError (environ_key key))
  end.

(** [request.args] is a [MultiDict]: a dict from a key to the list of
    its values. *)
Definition MultiDict := Py.dict (list string).

(** The request object, as far as [proxy] reads it. *)
Record Request : Type := {
  method : string;
  url : string;
  headers : EnvironHeaders;
  get_data : Py.bytes;
  args : MultiDict
}.

(** *** The development server

    [app.run] (the last line of [src/app.py]) serves with Werkzeug's
    development server, whose [WSGIRequestHandler.make_environ] files
    the header lines of the request, in order, into the environ: a name
    with an underscore is left out, a name seen before has the new
    value joined to the old one by a comma.  This is the environ of a
    request whose target is in origin form (a path and a query); for a
    target in absolute form the server takes [HTTP_HOST] from the
    target instead. *)

Fixpoint remove_crlf (s : string) : string :=
  match s with
  | EmptyString => EmptyString
  | String c r =>
      match r with
      | String c' r' =>
          if Ascii.eqb c "013" && Ascii.eqb c' "010" then remove_crlf r'
          else String c (remove_crlf r)
      | EmptyString => String c EmptyString
      end
  end.

Fixpoint contains_chr (c : ascii) (s : string) : bool :=
  match s with
  | EmptyString => false
  | String c' r => Ascii.eqb c' c || contains_chr c r
  end.

Definition add_header (env : Py.dict string) (line : string * string)
  : Py.dict string :=
  let (key, value) := line in
  if contains_chr "_" key then env
  else
    let key := Py.replace "-" "_" (Py.upper key) in
    let value := remove_crlf value in
    if negb (Py.str_in key ["CONTENT_TYPE"; "CONTENT_LENGTH"]) then
      let key := "HTTP_" ++ key in
      match Py.dict_get env key with
      | Some old => Py.dict_setitem env key (old ++ "," ++ value)
      | None => Py.dict_setitem env key value
      end
    else Py.dict_setitem env key value.

Definition make_environ (lines : list (string * string)) : Py.dict string :=
  fold_left add_header lines [].

End Werkzeug.

(* ================================================================= *)
(** ** requests: the upstream call and its answer *)

Module Requests.

(** [requests.structures.CaseInsensitiveDict], the class of
    [resp.headers]: its [_store] files the pair (key, value) under
    [key.lower()]; the entries are kept here in the order of [_store],
    each under the lowered form of its own key. *)
Definition CaseInsensitiveDict := list (string * string).

(** [d[key] = value]. *)
Fixpoint setitem (d : CaseInsensitiveDict) (key value : string)
  : CaseInsensitiveDict :=
  match d with
  | [] => [(key, value)]
  | (k, v) :: d' =>
      if String.eqb (Py.lower k) (Py.lower key) then (key, value) :: d'
      else (k, v) :: setitem d' key value
  end.

(** [d.items()]: the keys as they were last spelled, with their values. *)
Definition items (d : CaseInsensitiveDict) : list (string * string) := d.

(** The invariant of the class: no two entries under one lowered key. *)
Definition wf (d : CaseInsensitiveDict) : Prop :=
  NoDup (map (fun kv => Py.lower (fst kv)) d).

(** The keyword arguments of [requests.request]. *)
Record Request : Type := {
  method : string;
  url : string;
  headers : Py.dict string;
  data : Py.bytes;
  params : Werkzeug.MultiDict;
  timeout : Z
}.

(** The [requests.Response], as far as [proxy] reads it; [resp_headers]
    is its [headers]. *)
Record Response : Type := {
  status_code : Z;
  resp_headers : CaseInsensitiveDict;
  content : Py.bytes;
  text : Py.text
}.

End Requests.

(* ================================================================= *)
(** ** Flask: the response handed back *)

Module Flask.

(** The arguments of [Response(...)]. *)
Record Response : Type := {
  response : Py.bytes;
  status : Z;
  headers : Py.dict string
}.

End Flask.


(* ================================================================= *)
(** ** The world a request is handled in *)

(** The module global [MATRIX_BASE], what has been printed, the calls
    made through [requests.request], and the upstream that answers
    them. *)
Record World : Type := {
  MATRIX_BASE : string;
  stdout : list Py.text;
  sent : list Requests.Request;
  upstream : Requests.Request -> Py.result Requests.Response
}.

(** The world the module sets up when it is loaded. *)
Definition initial_world
    (up : Requests.Request -> Py.result Requests.Response) : World :=
  {| MATRIX_BASE := "https://disaccord.cc";
     stdout := [];
     sent := [];
     upstream := up |}.

(** Statements run in a world and end with a value or an exception. *)
Definition M (A : Type) : Type := World -> World * Py.result A.

Definition ret {A} (a : A) : M A := fun w => (w, Py.Return a).

Definition bind {A B} (m : M A) (f : A -> M B) : M B :=
  fun w =>
    match m w with
    | (w', Py.Return a) => f a w'
    | (w', Py.Raise e) => (w', Py.Raise e)
    end.

Definition lift {A} (r : Py.result A) : M A := fun w => (w, r).

Declare Scope py_scope.
Delimit Scope py_scope with py.

Notation "x <- m ;; k" := (bind m (fun x => k))
  (at level 61, m at next level, right associativity) : py_scope.
Notation "m ;; k" := (bind m (fun _ => k))
  (at level 61, right associativity) : py_scope.

Local Open Scope py_scope.

(** Reading the global. *)
Definition read_MATRIX_BASE : M string :=
  fun w => (w, Py.Return (MATRIX_BASE w)).

(** [print(a, b, ...)]: the arguments, a space between them. *)
Fixpoint join_args (items : list Py.text) : Py.text :=
  match items with
  | [] => []
  | [t] => t
  | t :: rest => (t ++ 32%N :: join_args rest)%list
  end.

Definition print (items : list Py.text) : M unit :=
  fun w =>
    ({| MATRIX_BASE := MATRIX_BASE w;
        stdout := (stdout w ++ [join_args items])%list;
        sent := sent w;
        upstream := upstream w |}, Py.Return tt).

(** [requests.request(...)]. *)
Definition requests_request (r : Requests.Request) : M Requests.Response :=
  fun w =>
    ({| MATRIX_BASE := MATRIX_BASE w;
        stdout := stdout w;
        sent := (sent w ++ [r])%list;
        upstream := upstream w |}, upstream w r).

(** [for x in l: body]. *)
Fixpoint for_each {A} (l : list A) (body : A -> M unit) : M unit :=
  match l with
  | [] => ret tt
  | x :: l' => body x ;; for_each l' body
  end.

(* ================================================================= *)
(** ** [src/app.py] *)

(** A [str] that is printed. *)
Definition txt : string -> Py.text := Py.text_of.

Definition excluded_headers : list string :=
  ["content-encoding"; "content-length"; "transfer-encoding"; "connection"].

Definition proxy (path : string) (request : Werkzeug.Request)
  : M Flask.Response :=
  MATRIX_BASE <- read_MATRIX_BASE ;;
  let upstream_url := MATRIX_BASE ++ "/_matrix/client/v3/" ++ path in
  print [txt "=== Incoming from Discourse ==="] ;;
  print [txt "Method:"; txt (Werkzeug.method request)] ;;
  print [txt "URL:"; txt (Werkzeug.url request)] ;;
  print [txt "Upstream URL:"; txt upstream_url] ;;
  print [txt "Headers:"] ;;
  for_each (Werkzeug.items (Werkzeug.headers request))
    (fun kv => print [txt ("  " ++ fst kv ++ ": " ++ snd kv)]) ;;
  let body := Werkzeug.get_data request in
  print [txt "Body:"; Py.decode_utf8_ignore body] ;;
  print [txt "==============================="] ;;
  headers <- lift (Py.dict_of_mapping
                     (Werkzeug.keys (Werkzeug.headers request))
                     (Werkzeug.getitem (Werkzeug.headers request))) ;;
  let headers := Py.dict_pop headers "Host" in
  let headers := Py.dict_pop headers "Content-Length" in
  resp <- requests_request
            {| Requests.method := Werkzeug.method request;
               Requests.url := upstream_url;
               Requests.headers := headers;
               Requests.data := body;
               Requests.params := Werkzeug.args request;
               Requests.timeout := 30 |} ;;
  print [txt "=== Response from Matrix ==="] ;;
  print [txt "Status:"; txt (Py.str_of_int (Requests.status_code resp))] ;;
  print [txt "Headers:"] ;;
  for_each (Requests.items (Requests.resp_headers resp))
    (fun kv => print [txt ("  " ++ fst kv ++ ": " ++ snd kv)]) ;;
  print [txt "Body:"; firstn 1000 (Requests.text resp)] ;;
  print [txt "============================"] ;;
  let response_headers :=
    filter (fun kv => negb (Py.str_in (Py.lower (fst kv)) excluded_headers))
           (Requests.items (Requests.resp_headers resp)) in
  ret {| Flask.response := Requests.content resp;
         Flask.status := Requests.status_code resp;
         Flask.headers := Py.dict_of_pairs response_headers |}.

(* ================================================================= *)
(** ** What a run of [proxy] leaves behind *)

(** The calls and the output a run has added to the world it began in. *)
Definition issued (w w' : World) : list Requests.Request :=
  skipn (length (sent w)) (sent w').

Definition printed (w w' : World) : list Py.text :=
  skipn (length (stdout w)) (stdout w').

(** The two log blocks, entry by entry. *)
Definition header_line (kv : string * string) : Py.text :=
  txt ("  " ++ fst kv ++ ": " ++ snd kv).

Definition incoming_log (base path : string) (request : Werkzeug.Request)
  : list Py.text :=
  ([ txt "=== Incoming from Discourse ===";
     join_args [txt "Method:"; txt (Werkzeug.method request)];
     join_args [txt "URL:"; txt (Werkzeug.url request)];
     join_args [txt "Upstream URL:"; txt (base ++ "/_matrix/client/v3/" ++ path)];
     txt "Headers:" ]
   ++ map header_line (Werkzeug.items (Werkzeug.headers request))
   ++ [ join_args [txt "Body:";
                   Py.decode_utf8_ignore (Werkzeug.get_data request)];
        txt "===============================" ])%list.

Definition response_log (resp : Requests.Response) : list Py.text :=
  ([ txt "=== Response from Matrix ===";
     join_args [txt "Status:"; txt (Py.str_of_int (Requests.status_code resp))];
     txt "Headers:" ]
   ++ map header_line (Requests.items (Requests.resp_headers resp))
   ++ [ join_args [txt "Body:"; firstn 1000 (Requests.text resp)];
        txt "============================" ])%list.

(** The header filters of the two directions. *)
Definition forwarded (kv : string * string) : bool :=
  negb (String.eqb (fst kv) "Host")
  && negb (String.eqb (fst kv) "Content-Length").

Definition relayed (kv : string * string) : bool :=
  negb (Py.str_in (Py.lower (fst kv)) excluded_headers).

(** The steps of [proxy] between its effects: the header set it
    forwards, the call it makes and the response it builds. *)
Definition forward_headers (request : Werkzeug.Request)
  : Py.result (Py.dict string) :=
  match Py.dict_of_mapping (Werkzeug.keys (Werkzeug.headers request))
                           (Werkzeug.getitem (Werkzeug.headers request)) with
  | Py.Return headers =>
      Py.Return (Py.dict_pop (Py.dict_pop headers "Host") "Content-Length")
  | Py.Raise e => Py.Raise e
  end.

Definition outbound (base path : string) (request : Werkzeug.Request)
    (headers : Py.dict string) : Requests.Request :=
  {| Requests.method := Werkzeug.method request;
     Requests.url := base ++ "/_matrix/client/v3/" ++ path;
     Requests.headers := headers;
     Requests.data := Werkzeug.get_data request;
     Requests.params := Werkzeug.args request;
     Requests.timeout := 30 |}.

Definition relay (resp : Requests.Response) : Flask.Response :=
  {| Flask.response := Requests.content resp;
     Flask.status := Requests.status_code resp;
     Flask.headers :=
       Py.dict_of_pairs (filter relayed (Requests.items (Requests.resp_headers resp))) |}.

(** The world after some more output, and after one more call. *)
Definition logged (w : World) (entries : list Py.text) : World :=
  {| MATRIX_BASE := MATRIX_BASE w;
     stdout := (stdout w ++ entries)%list;
     sent := sent w;
     upstream := upstream w |}.

Definition called (w : World) (r : Requests.Request) : World :=
  {| MATRIX_BASE := MATRIX_BASE w;
     stdout := stdout w;
     sent := (sent w ++ [r])%list;
     upstream := upstream w |}.

(** An environ whose variable names are CGI names: no lower-case letter
    and no hyphen, as a WSGI server spells them. *)
Definition cgi_chr (c : ascii) : bool :=
  negb (Py.is_lower c) && negb (Ascii.eqb c "-").

Fixpoint str_forall (p : ascii -> bool) (s : string) : bool :=
  match s with
  | EmptyString => true
  | String c r => p c && str_forall p r
  end.

Definition cgi_environ (env : Py.dict string) : bool :=
  forallb (fun entry => str_forall cgi_chr (fst entry)) env.

(** A request as the development server hands it over, [body] being
    the bytes [request.get_data()] has read: a request that arrived in
    full, as many bytes as its [Content-Length] line announces. *)
Definition served (meth full_url : string) (lines : list (string * string))
    (body : Py.bytes) (query : Werkzeug.MultiDict) : Werkzeug.Request :=
  {| Werkzeug.method := meth;
     Werkzeug.url := full_url;
     Werkzeug.headers := {| Werkzeug.environ := Werkzeug.make_environ lines |};
     Werkzeug.get_data := body;
     Werkzeug.args := query |}.

(** Upstreams and requests for the examples. *)
Definition unreachable (_ : Requests.Request)
  : Py.result Requests.Response := Py.Raise Py.ConnectionError.

Definition answer (resp : Requests.Response) (_ : Requests.Request)
  : Py.result Requests.Response := Py.Return resp.

Definition send_message : Werkzeug.Request :=
  served "POST"
    "http://localhost:5006/_matrix/client/v3/rooms/!abc:example.org/send/m.room.message/1"
    [("host", "localhost:5006");
     ("Authorization", "Bearer tok123");
     ("content-length", "13");
     ("Content-Type", "application/json")]
    [x7b; x22; x62; x6f; x64; x79; x22; x3a; x22; x68; x69; x22; x7d]
    [].


Definition room_path : string :=
  "rooms/!abc:example.org/send/m.room.message/1".

(** Two header lines of one name. *)
Definition two_lines : list (string * string) := [("X-A", "1"); ("X-A", "2")].

Definition sync_with (lines : list (string * string)) (body : Py.bytes)
  : Werkzeug.Request :=
  served "GET" "http://localhost:5006/_matrix/client/v3/sync" lines body [].

(** [s] is [t] with some of its elements left out. *)
Inductive subsequence {A : Type} : list A -> list A -> Prop :=
| subsequence_nil : subsequence [] []
| subsequence_keep (x : A) (s t : list A) :
    subsequence s t -> subsequence (x :: s) (x :: t)
| subsequence_skip (x : A) (s t : list A) :
    subsequence s t -> subsequence s (x :: t).

(** A byte no UTF-8 sequence can begin with. *)
Definition invalid_start (b : byte) : bool :=
  ((128 <=? Byte.to_N b)%N && (Byte.to_N b <? 194)%N)
  || (245 <=? Byte.to_N b)%N.

Definition gzip_answer : Requests.Response :=
  {| Requests.status_code := 200;
     Requests.resp_headers :=
       Requests.setitem
         (Requests.setitem
            (Requests.setitem [] "Content-Type" "application/json")
            "Content-Encoding" "gzip")
         "Connection" "keep-alive";
     Requests.content := [x7b; x7d];
     Requests.text := txt "{}" |}.

(* ================================================================= *)
(** ** The query string on its way out, and the header lines of an answer *)

Module Query.

(** [request.args] is the [MultiDict] of the pairs of the query string:
    for each pair, in order, [setdefault(key, []).append(value)]. *)
Fixpoint add (d : Werkzeug.MultiDict) (key value : string)
  : Werkzeug.MultiDict :=
  match d with
  | [] => [(key, [value])]
  | (k, vs) :: d' =>
      if String.eqb k key then (k, (vs ++ [value])%list) :: d'
      else (k, vs) :: add d' key value
  end.


(** [d.items()], which is [items(multi=False)]: each key with
    [values[0]]; [None] where Python raises [IndexError]. *)
Fixpoint items (d : Werkzeug.MultiDict) : option (list (string * string)) :=
  match d with
  | [] => Some []
  | (k, vs) :: d' =>
      match vs with
      | [] => None
      | v :: _ => option_map (cons (k, v)) (items d')
      end
  end.



End Query.

Module Urllib3.

(** [resp.headers] for the header lines of an answer.  urllib3 reads
    the lines into an [HTTPHeaderDict], whose [add] keeps the first
    spelling of a name and whose lookup joins the values of the name
    with a comma and a space; requests fills the [CaseInsensitiveDict]
    from it, key by key. *)
Fixpoint add (d : Requests.CaseInsensitiveDict) (key value : string)
  : Requests.CaseInsensitiveDict :=
  match d with
  | [] => [(key, value)]
  | (k, v) :: d' =>
      if String.eqb (Py.lower k) (Py.lower key)
      then (k, v ++ ", " ++ value) :: d'
      else (k, v) :: add d' key value
  end.

Definition headers_of (lines : list (string * string))
  : Requests.CaseInsensitiveDict :=
  fold_left (fun d kv => add d (fst kv) (snd kv)) lines [].

End Urllib3.




Example title_HOST : Py.title "HOST" = "Host".
Proof. reflexivity. Qed.

Example title_mixed : Py.title "X-FOO2BAR" = "X-Foo2Bar".
Proof. reflexivity. Qed.

Example decode_drops_ff :
  Py.decode_utf8_ignore [x41; xff; x42] = [65; 66]%N.
Proof. reflexivity. Qed.

Example decode_truncated :
  Py.decode_utf8_ignore [xe2; x82; x41] = [65]%N
  /\ Py.decode_utf8_ignore [xf0; x9f; x98; x41] = [65]%N
  /\ Py.decode_utf8_ignore [xed; xa0; x80; x41] = [65]%N
  /\ Py.decode_utf8_ignore [xe2; x82; xac] = [8364]%N
  /\ Py.decode_utf8_ignore [xc3] = [].
Proof. repeat split; reflexivity. Qed.

Example str_of_200 : Py.str_of_int 200 = "200".
Proof. reflexivity. Qed.

(* ================================================================= *)
(** ** Case and strings *)

Section Case.

Ltac by_cases c := destruct c as [[] [] [] [] [] [] [] []]; reflexivity.

Lemma chr_lower_idem (c : ascii) : Py.chr_lower (Py.chr_lower c) = Py.chr_lower c.
Proof. by_cases c. Qed.

Lemma chr_lower_upper (c : ascii) : Py.chr_lower (Py.chr_upper c) = Py.chr_lower c.
Proof. by_cases c. Qed.

Lemma chr_upper_lower (c : ascii) : Py.chr_upper (Py.chr_lower c) = Py.chr_upper c.
Proof. by_cases c. Qed.

Lemma chr_upper_idem (c : ascii) : Py.chr_upper (Py.chr_upper c) = Py.chr_upper c.
Proof. by_cases c. Qed.

Lemma is_cased_lower (c : ascii) : Py.is_cased (Py.chr_lower c) = Py.is_cased c.
Proof. by_cases c. Qed.

Lemma chr_upper_cgi (c : ascii) :
  cgi_chr (if Ascii.eqb (Py.chr_upper c) "-" then "_"%char else Py.chr_upper c)
  = true.
Proof. by_cases c. Qed.

Lemma cgi_chr_back (c : ascii) :
  cgi_chr c = true ->
  (let u := Py.chr_upper (if Ascii.eqb c "_" then "-"%char else c) in
   if Ascii.eqb u "-" then "_"%char else u) = c.
Proof. destruct c as [[] [] [] [] [] [] [] []]; (reflexivity || discriminate). Qed.

Lemma lower_title_from (b : bool) (s : string) :
  Py.lower (Py.title_from b s) = Py.lower s.
Proof.
  revert b; induction s as [|c r IH]; intros b; simpl; [reflexivity|].
  unfold Py.lower in *; simpl. rewrite IH.
  destruct b; [rewrite chr_lower_idem | rewrite chr_lower_upper]; reflexivity.
Qed.

Lemma upper_title_from (b : bool) (s : string) :
  Py.upper (Py.title_from b s) = Py.upper s.
Proof.
  revert b; induction s as [|c r IH]; intros b; simpl; [reflexivity|].
  unfold Py.upper in *; simpl. rewrite IH.
  destruct b; [rewrite chr_upper_lower | rewrite chr_upper_idem]; reflexivity.
Qed.

Lemma title_from_lower (b : bool) (s : string) :
  Py.title_from b (Py.lower s) = Py.title_from b s.
Proof.
  revert b; induction s as [|c r IH]; intros b; simpl; [reflexivity|].
  fold (Py.lower r). rewrite IH, is_cased_lower.
  destruct b; [rewrite chr_lower_idem | rewrite chr_upper_lower]; reflexivity.
Qed.

(** A title-cased name is fixed by its lowered form. *)
Lemma title_by_lower (s x : string) :
  Py.lower (Py.title s) = x -> Py.title s = Py.title x.
Proof.
  unfold Py.title. rewrite lower_title_from. intros <-.
  symmetry; apply title_from_lower.
Qed.

Lemma str_map_map (f g : ascii -> ascii) (s : string) :
  Py.str_map f (Py.str_map g s) = Py.str_map (fun c => f (g c)) s.
Proof. induction s as [|c r IH]; simpl; [reflexivity | now rewrite IH]. Qed.

Lemma str_map_id_on (f : ascii -> ascii) (p : ascii -> bool) (s : string) :
  (forall c, p c = true -> f c = c) ->
  str_forall p s = true -> Py.str_map f s = s.
Proof.
  intros Hf. induction s as [|c r IH]; simpl; [reflexivity|].
  intros H. apply andb_true_iff in H as [Hc Hr].
  now rewrite Hf, IH.
Qed.

Lemma str_forall_map (f : ascii -> ascii) (p : ascii -> bool) (s : string) :
  (forall c, p (f c) = true) -> str_forall p (Py.str_map f s) = true.
Proof.
  intros Hf. induction s as [|c r IH]; simpl; [reflexivity|].
  now rewrite Hf, IH.
Qed.

Lemma str_forall_app (p : ascii -> bool) (s t : string) :
  str_forall p (s ++ t) = str_forall p s && str_forall p t.
Proof.
  induction s as [|c r IH]; simpl; [reflexivity|].
  now rewrite IH, andb_assoc.
Qed.

Lemma str_forall_slice (p : ascii -> bool) (n : nat) (s : string) :
  str_forall p s = true -> str_forall p (Py.slice_from n s) = true.
Proof.
  revert s; induction n as [|n IH]; intros s H; [exact H|].
  destruct s as [|c r]; simpl; [reflexivity|].
  simpl in H. apply andb_true_iff in H as [_ Hr]. now apply IH.
Qed.

Lemma prefix_slice (p s : string) :
  String.prefix p s = true -> s = p ++ Py.slice_from (String.length p) s.
Proof.
  revert s; induction p as [|c p IH]; intros s H; simpl; [reflexivity|].
  destruct s as [|c' s']; simpl in H; [discriminate|].
  destruct (ascii_dec c c') as [->|]; [|discriminate].
  simpl. f_equal. now apply IH.
Qed.

(** The name a CGI variable is listed under leads back to the variable. *)
Lemma cgi_name_back (s : string) :
  str_forall cgi_chr s = true ->
  Py.replace "-" "_" (Py.upper (Py.title (Py.replace "_" "-" s))) = s.
Proof.
  intros H. unfold Py.title. rewrite upper_title_from.
  unfold Py.replace, Py.upper. rewrite !str_map_map.
  apply str_map_id_on with (p := cgi_chr); [|exact H].
  intros c Hc. exact (cgi_chr_back c Hc).
Qed.

End Case.

(* ================================================================= *)
(** ** Dicts *)

Section Dict.

Context {V : Type}.
Implicit Types (d : Py.dict V) (k : string) (v : V).

Lemma dict_get_setitem d k v k' :
  Py.dict_get (Py.dict_setitem d k v) k'
  = if String.eqb k k' then Some v else Py.dict_get d k'.
Proof.
  induction d as [|[k0 v0] d IH]; simpl.
  - reflexivity.
  - destruct (String.eqb_spec k0 k) as [->|Hne]; simpl.
    + destruct (String.eqb k k'); reflexivity.
    + rewrite IH. destruct (String.eqb_spec k0 k') as [->|]; [|reflexivity].
      destruct (String.eqb_spec k k') as [->|]; [congruence | reflexivity].
Qed.

Lemma dict_get_app d d' k :
  Py.dict_get (d ++ d')%list k
  = match Py.dict_get d k with Some v => Some v | None => Py.dict_get d' k end.
Proof.
  induction d as [|[k0 v0] d IH]; simpl; [reflexivity|].
  destruct (String.eqb k0 k); [reflexivity | exact IH].
Qed.

Lemma dict_get_in_keys d k :
  In k (Py.dict_keys d) -> exists v, Py.dict_get d k = Some v.
Proof.
  induction d as [|[k0 v0] d IH]; simpl; [contradiction|].
  intros [->|H].
  - rewrite String.eqb_refl. now exists v0.
  - destruct (String.eqb k0 k); [now exists v0 | now apply IH].
Qed.

Lemma dict_get_NoDup d k v :
  NoDup (Py.dict_keys d) -> In (k, v) d -> Py.dict_get d k = Some v.
Proof.
  induction d as [|[k0 v0] d IH]; simpl; [contradiction|].
  intros Hnd [Heq|Hin]; inversion Hnd as [|? ? Hnot Hnd']; subst.
  - inversion Heq; subst. now rewrite String.eqb_refl.
  - destruct (String.eqb_spec k0 k) as [->|]; [|now apply IH].
    exfalso; apply Hnot. now apply (in_map fst) in Hin.
Qed.

Lemma dict_keys_setitem d k v k' :
  In k' (Py.dict_keys (Py.dict_setitem d k v))
  <-> In k' (Py.dict_keys d) \/ k' = k.
Proof.
  induction d as [|[k0 v0] d IH]; simpl.
  - intuition congruence.
  - destruct (String.eqb_spec k0 k) as [->|Hne]; simpl.
    + intuition congruence.
    + rewrite IH. tauto.
Qed.

Lemma dict_setitem_fresh d k v :
  ~ In k (Py.dict_keys d) -> Py.dict_setitem d k v = (d ++ [(k, v)])%list.
Proof.
  induction d as [|[k0 v0] d IH]; simpl; [reflexivity|].
  intros H. destruct (String.eqb_spec k0 k) as [->|]; [tauto|].
  rewrite IH; tauto.
Qed.

Lemma dict_setitem_NoDup d k v :
  NoDup (Py.dict_keys d) -> NoDup (Py.dict_keys (Py.dict_setitem d k v)).
Proof.
  induction d as [|[k0 v0] d IH]; simpl; intros H.
  - constructor; [tauto | constructor].
  - inversion H as [|? ? Hnot Hnd]; subst.
    destruct (String.eqb_spec k0 k) as [->|Hne]; simpl.
    + now constructor.
    + constructor; [|now apply IH].
      intros Hin. apply dict_keys_setitem in Hin. intuition congruence.
Qed.

Lemma dict_pop_filter d k :
  NoDup (Py.dict_keys d) ->
  Py.dict_pop d k = filter (fun kv => negb (String.eqb (fst kv) k)) d.
Proof.
  induction d as [|[k0 v0] d IH]; simpl; [reflexivity|].
  intros H; inversion H as [|? ? Hnot Hnd]; subst.
  destruct (String.eqb_spec k0 k) as [->|Hne]; simpl.
  - symmetry. apply forallb_filter_id. apply forallb_forall.
    intros [k1 v1] Hin. simpl. destruct (String.eqb_spec k1 k) as [->|]; [|reflexivity].
    exfalso; apply Hnot. now apply (in_map fst) in Hin.
  - now rewrite IH.
Qed.

Lemma dict_pop_NoDup d k :
  NoDup (Py.dict_keys d) -> NoDup (Py.dict_keys (Py.dict_pop d k)).
Proof.
  induction d as [|[k0 v0] d IH]; simpl; intros H; [exact H|].
  inversion H as [|? ? Hnot Hnd]; subst.
  destruct (String.eqb k0 k); [exact Hnd|]. simpl.
  constructor; [|now apply IH].
  intros Hin. apply Hnot. rewrite dict_pop_filter in Hin by exact Hnd.
  unfold Py.dict_keys in *. apply in_map_iff in Hin as [x [Hx Hin]].
  apply filter_In in Hin as [Hin _]. apply in_map_iff. now exists x.
Qed.

Lemma dict_keys_pop d k k' :
  NoDup (Py.dict_keys d) ->
  In k' (Py.dict_keys (Py.dict_pop d k)) <-> In k' (Py.dict_keys d) /\ k' <> k.
Proof.
  intros H. rewrite dict_pop_filter by exact H. unfold Py.dict_keys.
  rewrite !in_map_iff. split.
  - intros [x [Hx Hin]]. apply filter_In in Hin as [Hin Hk]. subst k'.
    split; [now exists x|].
    destruct (String.eqb_spec (fst x) k); [discriminate | assumption].
  - intros [[x [Hx Hin]] Hne]. exists x. split; [exact Hx|].
    apply filter_In. split; [exact Hin|]. subst k'.
    destruct (String.eqb_spec (fst x) k); [contradiction | reflexivity].
Qed.

(** [dict(m)] *)

Lemma dict_merge_keys (g : string -> Py.result V) ks : forall d d',
  Py.dict_merge d ks g = Py.Return d' ->
  (forall k, In k (Py.dict_keys d') <-> In k (Py.dict_keys d) \/ In k ks)
  /\ (NoDup (Py.dict_keys d) -> NoDup (Py.dict_keys d')).
Proof.
  induction ks as [|k0 ks IH]; simpl; intros d d' H.
  - inversion H; subst. split; [tauto | auto].
  - destruct (g k0) as [v|e]; [|discriminate].
    apply IH in H as [Hk Hnd]. split.
    + intros k. rewrite Hk, dict_keys_setitem. intuition.
    + intros H0. apply Hnd. now apply dict_setitem_NoDup.
Qed.

Lemma dict_merge_total (g : string -> Py.result V) ks : forall d,
  (forall k, In k ks -> exists v, g k = Py.Return v) ->
  exists d', Py.dict_merge d ks g = Py.Return d'.
Proof.
  induction ks as [|k0 ks IH]; simpl; intros d H.
  - now exists d.
  - destruct (H k0 (or_introl eq_refl)) as [v ->].
    apply IH. intros k Hk. apply H. now right.
Qed.

Lemma dict_merge_fresh (g : string -> Py.result V) (f : string -> V) ks :
  forall d,
  NoDup (Py.dict_keys d ++ ks) ->
  (forall k, In k ks -> g k = Py.Return (f k)) ->
  Py.dict_merge d ks g = Py.Return (d ++ map (fun k => (k, f k)) ks)%list.
Proof.
  induction ks as [|k0 ks IH]; simpl; intros d Hnd Hg.
  - now rewrite app_nil_r.
  - rewrite (Hg k0 (or_introl eq_refl)).
    assert (Hfresh : ~ In k0 (Py.dict_keys d)).
    { intros Hin. apply NoDup_remove_2 in Hnd. apply Hnd.
      apply in_or_app. now left. }
    rewrite dict_setitem_fresh by exact Hfresh.
    rewrite IH.
    + now rewrite <- app_assoc.
    + unfold Py.dict_keys in *. rewrite map_app, <- app_assoc. exact Hnd.
    + intros k Hk. apply Hg. now right.
Qed.

(** [dict(pairs)] *)


Lemma fold_store_NoDup (l : list (string * V)) : forall d,
  NoDup (Py.dict_keys d) -> NoDup (Py.dict_keys (fold_left Py.store l d)).
Proof.
  induction l as [|kv l IH]; simpl; intros d H; [exact H|].
  apply IH. now apply dict_setitem_NoDup.
Qed.


Lemma fold_store_get (l : list (string * V)) : forall d k,
  Py.dict_get (fold_left Py.store l d) k
  = match Py.dict_get (rev l) k with
    | Some v => Some v
    | None => Py.dict_get d k
    end.
Proof.
  induction l as [|[k0 v0] l IH]; simpl; intros d k; [reflexivity|].
  rewrite IH, dict_get_app. unfold Py.store; simpl.
  rewrite dict_get_setitem.
  destruct (Py.dict_get (rev l) k); [reflexivity|].
  destruct (String.eqb k0 k); reflexivity.
Qed.

(** A dict built from pairs holds each name once, with the value of the
    last pair of that name. *)
Lemma dict_of_pairs_NoDup (l : list (string * V)) :
  NoDup (Py.dict_keys (Py.dict_of_pairs l)).
Proof. apply (fold_store_NoDup l []). constructor. Qed.


Lemma dict_of_pairs_get (l : list (string * V)) k :
  Py.dict_get (Py.dict_of_pairs l) k = Py.dict_get (rev l) k.
Proof.
  unfold Py.dict_of_pairs. rewrite fold_store_get. simpl.
  destruct (Py.dict_get (rev l) k); reflexivity.
Qed.


End Dict.


(** Filtering keeps names distinct. *)
Lemma filter_keeps_distinct {X Y : Type} (name : X -> Y) (keep : X -> bool) :
  forall xs : list X,
    NoDup (map name xs) -> NoDup (map name (filter keep xs)).
Proof.
  intros xs. induction xs as [|x xs IH]; simpl; intros H; [constructor|].
  inversion H as [|? ? Hnot Hnd]; subst.
  destruct (keep x); simpl; [|now apply IH].
  constructor; [|now apply IH].
  intros Hin. apply Hnot. apply in_map_iff in Hin as [y [Hy Hin]].
  apply filter_In in Hin as [Hin _]. apply in_map_iff. now exists y.
Qed.

(* ================================================================= *)
(** ** Runs of [proxy] *)

Lemma logged_logged (w : World) (l1 l2 : list Py.text) :
  logged (logged w l1) l2 = logged w (l1 ++ l2).
Proof. unfold logged; simpl. now rewrite <- app_assoc. Qed.

Lemma logged_nil (w : World) : logged w [] = w.
Proof. destruct w; unfold logged; simpl. now rewrite app_nil_r. Qed.

Lemma print_run (items : list Py.text) (w : World) :
  print items w = (logged w [join_args items], Py.Return tt).
Proof. reflexivity. Qed.

Lemma for_each_print {A} (f : A -> Py.text) (l : list A) : forall w,
  for_each l (fun x => print [f x]) w = (logged w (map f l), Py.Return tt).
Proof.
  induction l as [|x l IH]; intros w; simpl.
  - unfold ret. now rewrite logged_nil.
  - unfold bind. rewrite print_run, IH, logged_logged. reflexivity.
Qed.

(** A run of [proxy], effect by effect: the inbound block is printed;
    the header set is built, or the run ends there; the call is made;
    its failure ends the run, its answer is logged and relayed. *)
Lemma proxy_run (path : string) (request : Werkzeug.Request) (w : World) :
  proxy path request w =
  let w1 := logged w (incoming_log (MATRIX_BASE w) path request) in
  match forward_headers request with
  | Py.Raise e => (w1, Py.Raise e)
  | Py.Return headers =>
      let out := outbound (MATRIX_BASE w) path request headers in
      match upstream w out with
      | Py.Raise e => (called w1 out, Py.Raise e)
      | Py.Return resp =>
          (logged (called w1 out) (response_log resp), Py.Return (relay resp))
      end
  end.
Proof.
  unfold proxy, forward_headers.
  unfold bind at 1. unfold read_MATRIX_BASE.
  repeat (unfold bind at 1; rewrite print_run).
  unfold bind at 1.
  rewrite (for_each_print header_line).
  repeat (unfold bind at 1; rewrite print_run).
  rewrite !logged_logged.
  unfold bind at 1. unfold lift.
  destruct (Py.dict_of_mapping _ _) as [headers|e]; [|reflexivity].
  unfold bind at 1. unfold requests_request. cbn [upstream logged].
  fold (outbound (MATRIX_BASE w) path request
          (Py.dict_pop (Py.dict_pop headers "Host") "Content-Length")).
  destruct (upstream w _) as [resp|e]; [|reflexivity].
  repeat (unfold bind at 1; rewrite print_run).
  unfold bind at 1.
  rewrite (for_each_print header_line).
  repeat (unfold bind at 1; rewrite print_run).
  rewrite !logged_logged.
  reflexivity.
Qed.

(* ================================================================= *)
(** ** The inbound headers *)

Arguments Werkzeug.header_of : simpl never.

Lemma iter_spec (env : Py.dict string) (h : string * string) :
  In h (Werkzeug.iter env)
  <-> exists entry, In entry env /\ Werkzeug.header_of entry = Some h.
Proof.
  induction env as [|entry env IH]; simpl.
  - split; [contradiction | intros [? [[] _]]].
  - destruct (Werkzeug.header_of entry) as [h0|] eqn:E; simpl; rewrite IH.
    + split.
      * intros [<-|[e [Hin He]]]; [exists entry | exists e]; auto.
      * intros [e [[<-|Hin] He]]; [left; congruence | right; now exists e].
    + split.
      * intros [e [Hin He]]. exists e; auto.
      * intros [e [[<-|Hin] He]]; [congruence | now exists e].
Qed.

Lemma header_of_titled (entry h : string * string) :
  Werkzeug.header_of entry = Some h ->
  snd h = snd entry /\ exists y, fst h = Py.title y.
Proof.
  destruct entry as [key value]. unfold Werkzeug.header_of.
  destruct (_ && _).
  - intros [= <-]. split; [reflexivity | eexists; reflexivity].
  - destruct (_ && _); [|discriminate].
    intros [= <-]. split; [reflexivity | eexists; reflexivity].
Qed.

(** Every name [request.headers] yields is in title case. *)
Lemma keys_titled (h : Werkzeug.EnvironHeaders) (name : string) :
  In name (Werkzeug.keys h) -> exists y, name = Py.title y.
Proof.
  unfold Werkzeug.keys, Werkzeug.items. intros Hin.
  apply in_map_iff in Hin as [[n v] [<- Hin]].
  apply iter_spec in Hin as [entry [_ He]].
  apply header_of_titled in He as [_ Hy]. exact Hy.
Qed.

(** So a name is [Host] or [Content-Length] however it is compared. *)
Lemma keys_host (h : Werkzeug.EnvironHeaders) (name : string) :
  In name (Werkzeug.keys h) ->
  (Py.lower name = "host" <-> name = "Host")
  /\ (Py.lower name = "content-length" <-> name = "Content-Length").
Proof.
  intros Hin. apply keys_titled in Hin as [y ->].
  split; split; intros H.
  - apply title_by_lower in H. rewrite H. reflexivity.
  - rewrite H. reflexivity.
  - apply title_by_lower in H. rewrite H. reflexivity.
  - rewrite H. reflexivity.
Qed.

Lemma str_in_cons (x y : string) (l : list string) :
  Py.str_in x (y :: l) = String.eqb x y || Py.str_in x l.
Proof. reflexivity. Qed.

Lemma header_of_eq (key value : string) :
  Werkzeug.header_of (key, value) =
  if Py.startswith key "HTTP_"
     && negb (Py.str_in key ["HTTP_CONTENT_TYPE"; "HTTP_CONTENT_LENGTH"])
  then Some (Py.title (Py.replace "_" "-" (Py.slice_from 5 key)), value)
  else if Py.str_in key ["CONTENT_TYPE"; "CONTENT_LENGTH"]
          && negb (String.eqb value "")
  then Some (Py.title (Py.replace "_" "-" key), value)
  else None.
Proof. reflexivity. Qed.

(** Under CGI names the name of a header leads back to its variable. *)
Lemma header_of_key (key value : string) (h : string * string) :
  str_forall cgi_chr key = true ->
  Werkzeug.header_of (key, value) = Some h ->
  snd h = value /\ Werkzeug.environ_key (fst h) = key.
Proof.
  intros Hcgi. rewrite header_of_eq.
  destruct (_ && _) eqn:E1.
  - intros H.
    assert (Hh : h = (Py.title (Py.replace "_" "-" (Py.slice_from 5 key)), value))
      by congruence.
    subst h. clear H. split; [reflexivity|]. cbn [fst].
    apply andb_true_iff in E1 as [Hp Hn].
    unfold Py.startswith in Hp. apply prefix_slice in Hp.
    change (String.length "HTTP_") with 5 in Hp.
    unfold Werkzeug.environ_key.
    rewrite cgi_name_back by (now apply str_forall_slice).
    remember (Py.slice_from 5 key) as rest eqn:Hrest. clear Hrest.
    assert (Hout : Py.str_in rest ["CONTENT_TYPE"; "CONTENT_LENGTH"] = false).
    { apply negb_true_iff in Hn. rewrite Hp in Hn.
      rewrite !str_in_cons in *. simpl in *.
      destruct (String.eqb_spec rest "CONTENT_TYPE") as [->|]; [discriminate|].
      destruct (String.eqb_spec rest "CONTENT_LENGTH") as [->|]; [discriminate|].
      reflexivity. }
    rewrite Hout. symmetry. exact Hp.
  - destruct (Py.str_in key ["CONTENT_TYPE"; "CONTENT_LENGTH"] && _) eqn:E2;
      [|discriminate].
    intros [= <-]. split; [reflexivity|]. simpl.
    apply andb_true_iff in E2 as [Hin _].
    rewrite !str_in_cons in Hin. simpl in Hin. rewrite orb_false_r in Hin.
    apply orb_true_iff in Hin as [H|H]; apply String.eqb_eq in H; subst key;
      reflexivity.
Qed.

Lemma cgi_environ_entry (env : Py.dict string) (entry : string * string) :
  cgi_environ env = true -> In entry env ->
  str_forall cgi_chr (fst entry) = true.
Proof.
  unfold cgi_environ. rewrite forallb_forall. intros H Hin. now apply H.
Qed.

(** The variables behind the headers, in order. *)
Lemma iter_environ_keys (env : Py.dict string) :
  cgi_environ env = true ->
  map Werkzeug.environ_key (map fst (Werkzeug.iter env))
  = map fst (filter (fun entry => match Werkzeug.header_of entry with
                                  | Some _ => true
                                  | None => false
                                  end) env).
Proof.
  induction env as [|[key value] env IH]; simpl; [reflexivity|].
  intros H. apply andb_true_iff in H as [Hk Henv].
  destruct (Werkzeug.header_of (key, value)) as [h|] eqn:E; simpl.
  - apply header_of_key in E as [_ ->]; [|exact Hk]. now rewrite IH.
  - now apply IH.
Qed.

Lemma iter_names_distinct (env : Py.dict string) :
  cgi_environ env = true -> NoDup (Py.dict_keys env) ->
  NoDup (map fst (Werkzeug.iter env)).
Proof.
  intros Hcgi Hnd. apply (NoDup_map_inv Werkzeug.environ_key).
  rewrite iter_environ_keys by exact Hcgi.
  now apply filter_keeps_distinct.
Qed.

(** [h[name]] for the names [h] yields. *)
Lemma getitem_of_item (h : Werkzeug.EnvironHeaders) (name value : string) :
  cgi_environ (Werkzeug.environ h) = true ->
  In (name, value) (Werkzeug.items h) ->
  exists v, Werkzeug.getitem h name = Py.Return v
            /\ (NoDup (Py.dict_keys (Werkzeug.environ h)) -> v = value).
Proof.
  intros Hcgi Hin. unfold Werkzeug.items in Hin.
  apply iter_spec in Hin as [[key val] [Hin He]].
  pose proof (cgi_environ_entry _ _ Hcgi Hin) as Hk.
  apply header_of_key in He as [Hv Hkey]; [|exact Hk]. simpl in Hv, Hkey.
  subst val. unfold Werkzeug.getitem. rewrite Hkey.
  destruct (Py.dict_get (Werkzeug.environ h) key) as [v|] eqn:G.
  - exists v. split; [reflexivity|]. intros Hnd.
    rewrite (dict_get_NoDup _ _ _ Hnd Hin) in G. congruence.
  - exfalso. destruct (dict_get_in_keys (Werkzeug.environ h) key) as [v Hv].
    + apply in_map_iff. now exists (key, value).
    + congruence.
Qed.

(* ================================================================= *)
(** ** The header set that is forwarded *)

Lemma forward_headers_names (request : Werkzeug.Request)
    (headers : Py.dict string) :
  forward_headers request = Py.Return headers ->
  NoDup (Py.dict_keys headers)
  /\ forall k, In k (Py.dict_keys headers)
               <-> In k (Werkzeug.keys (Werkzeug.headers request))
                   /\ k <> "Host" /\ k <> "Content-Length".
Proof.
  unfold forward_headers, Py.dict_of_mapping.
  destruct (Py.dict_merge _ _ _) as [d|e] eqn:E; [|discriminate].
  intros [= <-]. apply dict_merge_keys in E as [Hk Hnd].
  specialize (Hnd (NoDup_nil _)).
  split.
  - now apply dict_pop_NoDup, dict_pop_NoDup.
  - intros k. rewrite dict_keys_pop by now apply dict_pop_NoDup.
    rewrite dict_keys_pop by exact Hnd. rewrite Hk. simpl. tauto.
Qed.

Lemma forward_headers_total (request : Werkzeug.Request) :
  cgi_environ (Werkzeug.environ (Werkzeug.headers request)) = true ->
  exists headers, forward_headers request = Py.Return headers.
Proof.
  intros Hcgi. unfold forward_headers, Py.dict_of_mapping.
  destruct (dict_merge_total
              (Werkzeug.getitem (Werkzeug.headers request))
              (Werkzeug.keys (Werkzeug.headers request)) []) as [d ->].
  - intros k Hk. unfold Werkzeug.keys in Hk.
    apply in_map_iff in Hk as [[n v] [<- Hin]].
    destruct (getitem_of_item _ _ _ Hcgi Hin) as [v' [Hv' _]].
    now exists v'.
  - eexists; reflexivity.
Qed.

Lemma pairs_of_names (f : string -> string) (l : list (string * string)) :
  (forall kv, In kv l -> f (fst kv) = snd kv) ->
  map (fun k => (k, f k)) (map fst l) = l.
Proof.
  induction l as [|[k v] l IH]; simpl; intros H; [reflexivity|].
  pose proof (H (k, v) (or_introl eq_refl)) as Hk. simpl in Hk.
  rewrite Hk. f_equal.
  apply IH. intros kv Hin. apply H. now right.
Qed.

Lemma filter_twice {A} (p q : A -> bool) (l : list A) :
  filter q (filter p l) = filter (fun x => p x && q x) l.
Proof.
  induction l as [|x l IH]; simpl; [reflexivity|].
  destruct (p x); simpl; [destruct (q x)|]; now rewrite IH.
Qed.

(** From a CGI environ the headers go out as they come in, less the two. *)
Lemma forward_headers_exact (request : Werkzeug.Request) :
  cgi_environ (Werkzeug.environ (Werkzeug.headers request)) = true ->
  NoDup (Py.dict_keys (Werkzeug.environ (Werkzeug.headers request))) ->
  forward_headers request
  = Py.Return (filter forwarded (Werkzeug.items (Werkzeug.headers request))).
Proof.
  intros Hcgi Hnd.
  set (h := Werkzeug.headers request) in *.
  assert (Hnames : NoDup (map fst (Werkzeug.items h)))
    by now apply iter_names_distinct.
  set (f := fun name => match Werkzeug.getitem h name with
                        | Py.Return v => v
                        | Py.Raise _ => name
                        end).
  assert (Hf : forall kv, In kv (Werkzeug.items h) ->
                 Werkzeug.getitem h (fst kv) = Py.Return (snd kv)).
  { intros [n v] Hin. destruct (getitem_of_item _ _ _ Hcgi Hin) as [v' [Hg Hv]].
    simpl. rewrite Hg, (Hv Hnd). reflexivity. }
  unfold forward_headers, Py.dict_of_mapping.
  rewrite (dict_merge_fresh (Werkzeug.getitem h) f).
  - simpl. unfold Werkzeug.keys. rewrite pairs_of_names.
    + rewrite !dict_pop_filter.
      * rewrite filter_twice. reflexivity.
      * exact Hnames.
      * rewrite dict_pop_filter by exact Hnames.
        now apply filter_keeps_distinct.
    + intros kv Hin. unfold f. now rewrite (Hf kv Hin).
  - exact Hnames.
  - intros k Hk. unfold Werkzeug.keys in Hk.
    apply in_map_iff in Hk as [kv [<- Hin]]. unfold f.
    now rewrite (Hf kv Hin).
Qed.

(** ** The environ of the development server *)

Lemma cgi_environ_setitem (env : Py.dict string) (key value : string) :
  cgi_environ env = true -> str_forall cgi_chr key = true ->
  cgi_environ (Py.dict_setitem env key value) = true.
Proof.
  intros Henv Hkey. induction env as [|[k v] env IH]; simpl.
  - now rewrite Hkey.
  - simpl in Henv. apply andb_true_iff in Henv as [Hk He].
    destruct (String.eqb k key); simpl; rewrite Hk; [exact He | now apply IH].
Qed.

Lemma cgi_name (key : string) :
  str_forall cgi_chr (Py.replace "-" "_" (Py.upper key)) = true.
Proof.
  unfold Py.replace, Py.upper. rewrite str_map_map.
  apply str_forall_map. exact chr_upper_cgi.
Qed.

Lemma add_header_cgi (env : Py.dict string) (line : string * string) :
  cgi_environ env = true /\ NoDup (Py.dict_keys env) ->
  cgi_environ (Werkzeug.add_header env line) = true
  /\ NoDup (Py.dict_keys (Werkzeug.add_header env line)).
Proof.
  intros [Hcgi Hnd]. destruct line as [key value]. unfold Werkzeug.add_header.
  destruct (Werkzeug.contains_chr "_" key); [now split|].
  pose proof (cgi_name key) as Hk.
  destruct (negb _).
  - assert (Hk' : str_forall cgi_chr ("HTTP_" ++ Py.replace "-" "_" (Py.upper key))
                  = true) by (rewrite str_forall_app, Hk; reflexivity).
    destruct (Py.dict_get env _); split;
      (now apply cgi_environ_setitem) || (now apply dict_setitem_NoDup).
  - split; [now apply cgi_environ_setitem | now apply dict_setitem_NoDup].
Qed.

(** What the development server hands over is a CGI environ. *)
Lemma make_environ_cgi (lines : list (string * string)) :
  cgi_environ (Werkzeug.make_environ lines) = true
  /\ NoDup (Py.dict_keys (Werkzeug.make_environ lines)).
Proof.
  unfold Werkzeug.make_environ.
  assert (H : forall env, cgi_environ env = true /\ NoDup (Py.dict_keys env) ->
            cgi_environ (fold_left Werkzeug.add_header lines env) = true
            /\ NoDup (Py.dict_keys (fold_left Werkzeug.add_header lines env))).
  { induction lines as [|line lines IH]; simpl; intros env He; [exact He|].
    apply IH. now apply add_header_cgi. }
  apply H. split; [reflexivity | constructor].
Qed.

(* ================================================================= *)
(** ** What a run adds to the world *)

Lemma skipn_length_app {A} (l r : list A) : skipn (length l) (l ++ r) = r.
Proof. induction l as [|x l IH]; simpl; [reflexivity | exact IH]. Qed.

Lemma issued_logged (w w' : World) (l : list Py.text) :
  issued w (logged w' l) = issued w w'.
Proof. reflexivity. Qed.

Lemma issued_called (w : World) (l : list Py.text) (out : Requests.Request) :
  issued w (called (logged w l) out) = [out].
Proof. unfold issued; simpl. apply (skipn_length_app (sent w) [out]). Qed.

Lemma issued_none (w : World) (l : list Py.text) : issued w (logged w l) = [].
Proof.
  unfold issued; simpl. rewrite <- (app_nil_r (sent w)) at 2.
  apply skipn_length_app.
Qed.

Lemma printed_logged (w : World) (l : list Py.text) :
  printed w (logged w l) = l.
Proof. unfold printed; simpl. apply skipn_length_app. Qed.

Lemma printed_called (w : World) (l : list Py.text) (out : Requests.Request) :
  printed w (called (logged w l) out) = l.
Proof. unfold printed; simpl. apply skipn_length_app. Qed.

Lemma printed_answered (w : World) (l l' : list Py.text)
    (out : Requests.Request) :
  printed w (logged (called (logged w l) out) l') = (l ++ l')%list.
Proof.
  unfold printed; simpl. rewrite <- app_assoc. apply skipn_length_app.
Qed.

(** The calls of a run: none if the header set could not be built, one
    otherwise. *)
Lemma proxy_issued (path : string) (request : Werkzeug.Request) (w : World) :
  issued w (fst (proxy path request w))
  = match forward_headers request with
    | Py.Return headers => [outbound (MATRIX_BASE w) path request headers]
    | Py.Raise _ => []
    end.
Proof.
  rewrite proxy_run. cbv zeta.
  destruct (forward_headers request) as [headers|e]; simpl.
  - destruct (upstream w _); simpl.
    + rewrite issued_logged. apply issued_called.
    + apply issued_called.
  - apply issued_none.
Qed.

(** A run that has made a call, told by the answer to the call. *)
Lemma proxy_answered (path : string) (request : Werkzeug.Request) (w : World)
    (out : Requests.Request) :
  issued w (fst (proxy path request w)) = [out] ->
  (exists headers, forward_headers request = Py.Return headers
                   /\ out = outbound (MATRIX_BASE w) path request headers)
  /\ snd (proxy path request w)
     = match upstream w out with
       | Py.Return resp => Py.Return (relay resp)
       | Py.Raise e => Py.Raise e
       end
  /\ printed w (fst (proxy path request w))
     = (incoming_log (MATRIX_BASE w) path request
        ++ match upstream w out with
           | Py.Return resp => response_log resp
           | Py.Raise _ => []
           end)%list.
Proof.
  rewrite proxy_issued. rewrite proxy_run. cbv zeta.
  destruct (forward_headers request) as [headers|e]; [|discriminate].
  intros [= <-]. split; [now exists headers|].
  destruct (upstream w _); simpl; split; try reflexivity.
  - apply printed_answered.
  - rewrite app_nil_r. apply printed_called.
Qed.

(** From a CGI environ the call is always made. *)
Lemma proxy_calls (path : string) (request : Werkzeug.Request) (w : World) :
  cgi_environ (Werkzeug.environ (Werkzeug.headers request)) = true ->
  exists out, issued w (fst (proxy path request w)) = [out].
Proof.
  intros Hcgi. rewrite proxy_issued.
  destruct (forward_headers_total request Hcgi) as [headers ->].
  eexists; reflexivity.
Qed.

(** A run that returns has relayed an answer of the upstream. *)
Lemma proxy_returned (path : string) (request : Werkzeug.Request) (w : World)
    (r : Flask.Response) :
  snd (proxy path request w) = Py.Return r ->
  exists out resp,
    issued w (fst (proxy path request w)) = [out]
    /\ upstream w out = Py.Return resp /\ r = relay resp.
Proof.
  rewrite proxy_issued. rewrite proxy_run. cbv zeta.
  destruct (forward_headers request) as [headers|e]; [|discriminate].
  destruct (upstream w _) as [resp|e] eqn:E; simpl; [|discriminate].
  intros [= <-]. eexists; eexists. split; [reflexivity|].
  split; [exact E | reflexivity].
Qed.

Lemma str_in_In (x : string) (l : list string) :
  Py.str_in x l = true <-> In x l.
Proof.
  unfold Py.str_in. rewrite existsb_exists. split.
  - intros [y [Hin He]]. apply String.eqb_eq in He. now subst.
  - intros Hin. exists x. split; [exact Hin | apply String.eqb_refl].
Qed.

(* ================================================================= *)
(** ** Failure of the upstream call *)

(** C1, as stated, fails: with the upstream unreachable [proxy] hands
    no response back; the run ends with the [ConnectionError] that
    [requests.request] raised. *)
Lemma unreachable_upstream_raises :
  snd (proxy room_path send_message (initial_world unreachable))
    = Py.Raise Py.ConnectionError
  /\ ~ exists r : Flask.Response,
         snd (proxy room_path send_message (initial_world unreachable))
         = Py.Return r.
Proof.
  assert (H : snd (proxy room_path send_message (initial_world unreachable))
              = Py.Raise Py.ConnectionError) by (vm_compute; reflexivity).
  split; [exact H|]. intros [r Hr]. rewrite H in Hr. discriminate.
Qed.

(** C1, amended: when the call to the upstream fails, [proxy] does not
    catch the failure; it raises that very exception to its caller,
    builds no response, and has printed the inbound block only. *)
Theorem transport_failure_propagates
    (path : string) (request : Werkzeug.Request) (w : World)
    (out : Requests.Request) (e : Py.exn) :
  issued w (fst (proxy path request w)) = [out] ->
  upstream w out = Py.Raise e ->
  snd (proxy path request w) = Py.Raise e
  /\ (forall r, snd (proxy path request w) <> Py.Return r)
  /\ printed w (fst (proxy path request w))
     = incoming_log (MATRIX_BASE w) path request.
Proof.
  intros Hout Hup.
  destruct (proxy_answered path request w out Hout) as [_ [Hres Hlog]].
  rewrite Hup in Hres, Hlog. rewrite app_nil_r in Hlog.
  split; [exact Hres|]. split; [|exact Hlog].
  intros r Hr. rewrite Hres in Hr. discriminate.
Qed.

Lemma transport_failure_propagates_witness :
  snd (proxy room_path send_message (initial_world unreachable))
    = Py.Raise Py.ConnectionError
  /\ (forall r, snd (proxy room_path send_message (initial_world unreachable))
                <> Py.Return r)
  /\ printed (initial_world unreachable)
       (fst (proxy room_path send_message (initial_world unreachable)))
     = incoming_log "https://disaccord.cc" room_path send_message.
Proof.
  eapply (transport_failure_propagates room_path send_message
            (initial_world unreachable)).
  - vm_compute. reflexivity.
  - reflexivity.
Defined.

(* ================================================================= *)
(** ** The request that is forwarded *)

(** C2, as stated, fails: of two header lines of one name a single
    entry goes out, holding the values the server has joined. *)
Lemma repeated_lines_forwarded_once :
  map Requests.headers
      (issued (initial_world unreachable)
         (fst (proxy "sync" (sync_with two_lines []) (initial_world unreachable))))
    = [[("X-A", "1,2")]]
  /\ map Requests.headers
         (issued (initial_world unreachable)
            (fst (proxy "sync" (sync_with two_lines [])
                    (initial_world unreachable))))
     <> [filter forwarded two_lines].
Proof.
  assert (H : map Requests.headers
                (issued (initial_world unreachable)
                   (fst (proxy "sync" (sync_with two_lines [])
                           (initial_world unreachable))))
              = [[("X-A", "1,2")]]) by (vm_compute; reflexivity).
  split; [exact H|]. rewrite H. vm_compute. discriminate.
Qed.

(** C2, amended: from a CGI environ the body goes out byte for byte,
    and the header set that goes out is a mapping holding each name
    once: the headers [request.headers] yields, in their order and with
    their values, except [Host] and [Content-Length]. *)
Theorem headers_and_body_forwarded
    (path : string) (request : Werkzeug.Request) (w : World) :
  cgi_environ (Werkzeug.environ (Werkzeug.headers request)) = true ->
  NoDup (Py.dict_keys (Werkzeug.environ (Werkzeug.headers request))) ->
  exists out,
    issued w (fst (proxy path request w)) = [out]
    /\ Requests.data out = Werkzeug.get_data request
    /\ Requests.headers out
       = filter forwarded (Werkzeug.items (Werkzeug.headers request))
    /\ NoDup (Py.dict_keys (Requests.headers out)).
Proof.
  intros Hcgi Hnd. rewrite proxy_issued.
  pose proof (forward_headers_exact request Hcgi Hnd) as Hfw.
  destruct (forward_headers_names request _ Hfw) as [Hdistinct _].
  rewrite Hfw. eexists. split; [reflexivity|].
  split; [reflexivity|]. split; [reflexivity | exact Hdistinct].
Qed.

Lemma headers_and_body_forwarded_witness :
  exists out,
    issued (initial_world (answer gzip_answer))
      (fst (proxy room_path send_message (initial_world (answer gzip_answer))))
    = [out]
    /\ Requests.data out = Werkzeug.get_data send_message
    /\ Requests.headers out
       = filter forwarded (Werkzeug.items (Werkzeug.headers send_message))
    /\ NoDup (Py.dict_keys (Requests.headers out)).
Proof.
  apply (headers_and_body_forwarded room_path send_message
           (initial_world (answer gzip_answer))).
  - reflexivity.
  - vm_compute.
    repeat (constructor; [simpl; intuition discriminate|]). constructor.
Defined.

(** C3: whatever the environ, a header set that goes out holds exactly
    the names [request.headers] yields other than the host and the
    content-length header, in any case; from a CGI environ it does go
    out. *)
Theorem host_and_content_length_removed
    (path : string) (request : Werkzeug.Request) (w : World) :
  Forall (fun out =>
            forall k,
              (In k (Py.dict_keys (Requests.headers out))
               <-> In k (Werkzeug.keys (Werkzeug.headers request))
                   /\ Py.lower k <> "host"
                   /\ Py.lower k <> "content-length")
              /\ (In k (Py.dict_keys (Requests.headers out)) ->
                  Py.lower k <> "host" /\ Py.lower k <> "content-length"))
         (issued w (fst (proxy path request w)))
  /\ (cgi_environ (Werkzeug.environ (Werkzeug.headers request)) = true ->
      exists out, issued w (fst (proxy path request w)) = [out]).
Proof.
  split; [|apply proxy_calls].
  rewrite proxy_issued.
  destruct (forward_headers request) as [headers|e] eqn:E; [|constructor].
  constructor; [|constructor]. simpl.
  destruct (forward_headers_names request headers E) as [_ Hk].
  assert (Hiff : forall k,
             In k (Py.dict_keys headers)
             <-> In k (Werkzeug.keys (Werkzeug.headers request))
                 /\ Py.lower k <> "host" /\ Py.lower k <> "content-length").
  { intros k. rewrite Hk. split.
    - intros [Hin [H1 H2]]. destruct (keys_host _ _ Hin) as [Hh Hc].
      repeat split; [exact Hin | |]; intros H;
        [apply H1; now apply Hh | apply H2; now apply Hc].
    - intros [Hin [H1 H2]]. repeat split; [exact Hin | |]; intros ->;
        [apply H1 | apply H2]; reflexivity. }
  intros k. split; [apply Hiff|]. intros Hin. now apply Hiff in Hin.
Qed.

Lemma host_and_content_length_removed_witness :
  exists out,
    issued (initial_world (answer gzip_answer))
      (fst (proxy room_path send_message (initial_world (answer gzip_answer))))
    = [out]
    /\ forall k, In k (Py.dict_keys (Requests.headers out)) ->
                 Py.lower k <> "host" /\ Py.lower k <> "content-length".
Proof.
  destruct (host_and_content_length_removed room_path send_message
              (initial_world (answer gzip_answer))) as [Hall Hcalls].
  destruct (Hcalls eq_refl) as [out Hout]. exists out.
  split; [exact Hout|]. rewrite Hout in Hall.
  intros k. exact (proj2 (Forall_inv Hall k)).
Defined.

(** *** The query parameters *)













(** C6: every call carries the bytes of the inbound body, as many and
    the same, whatever they are; from a CGI environ the call is made. *)
Theorem body_forwarded_bytewise
    (path : string) (request : Werkzeug.Request) (w : World) :
  Forall (fun out =>
            Requests.data out = Werkzeug.get_data request
            /\ length (Requests.data out) = length (Werkzeug.get_data request))
         (issued w (fst (proxy path request w)))
  /\ (cgi_environ (Werkzeug.environ (Werkzeug.headers request)) = true ->
      exists out, issued w (fst (proxy path request w)) = [out]).
Proof.
  split; [|apply proxy_calls].
  rewrite proxy_issued.
  destruct (forward_headers request); constructor; [|constructor].
  simpl. split; reflexivity.
Qed.

Lemma body_forwarded_bytewise_witness :
  exists out,
    issued (initial_world unreachable)
      (fst (proxy "sync" (sync_with [] [xc3; x28; xff]) (initial_world unreachable)))
    = [out]
    /\ Requests.data out = [xc3; x28; xff].
Proof.
  destruct (body_forwarded_bytewise "sync" (sync_with [] [xc3; x28; xff])
              (initial_world unreachable)) as [Hall Hcalls].
  destruct (Hcalls eq_refl) as [out Hout]. exists out.
  split; [exact Hout|]. rewrite Hout in Hall.
  exact (proj1 (Forall_inv Hall)).
Defined.

(* ================================================================= *)
(** ** The response that is relayed *)


Lemma setitem_lowered (d : Requests.CaseInsensitiveDict) (key value x : string) :
  In x (map (fun kv => Py.lower (fst kv)) (Requests.setitem d key value))
  <-> In x (map (fun kv => Py.lower (fst kv)) d) \/ x = Py.lower key.
Proof.
  induction d as [|[k v] d IH]; simpl.
  - intuition congruence.
  - destruct (String.eqb_spec (Py.lower k) (Py.lower key)) as [E|E]; simpl.
    + rewrite E. intuition congruence.
    + rewrite IH. tauto.
Qed.

(** [d[key] = value] keeps the invariant of the class. *)
Lemma setitem_wf (d : Requests.CaseInsensitiveDict) (key value : string) :
  Requests.wf d -> Requests.wf (Requests.setitem d key value).
Proof.
  unfold Requests.wf. induction d as [|[k v] d IH]; simpl; intros H.
  - constructor; [tauto | constructor].
  - inversion H as [|? ? Hnot Hnd]; subst.
    destruct (String.eqb_spec (Py.lower k) (Py.lower key)) as [E|E]; simpl.
    + constructor; [now rewrite <- E | exact Hnd].
    + constructor; [|now apply IH].
      intros Hin. apply setitem_lowered in Hin. intuition congruence.
Qed.





(** *** Names that an answer repeats *)

Lemma add_lowered (d : Requests.CaseInsensitiveDict) (key value : string) :
  map (fun kv => Py.lower (fst kv)) (Urllib3.add d key value)
  = if Py.str_in (Py.lower key) (map (fun kv => Py.lower (fst kv)) d)
    then map (fun kv => Py.lower (fst kv)) d
    else (map (fun kv => Py.lower (fst kv)) d ++ [Py.lower key])%list.
Proof.
  induction d as [|[k v] d IH]; simpl; [reflexivity|].
  rewrite (String.eqb_sym (Py.lower key) (Py.lower k)).
  destruct (String.eqb (Py.lower k) (Py.lower key)); simpl; [reflexivity|].
  rewrite IH. now destruct (Py.str_in (Py.lower key) _).
Qed.

Lemma add_wf (d : Requests.CaseInsensitiveDict) (key value : string) :
  Requests.wf d -> Requests.wf (Urllib3.add d key value).
Proof.
  unfold Requests.wf. intros H. rewrite add_lowered.
  destruct (Py.str_in (Py.lower key) _) eqn:E; [exact H|].
  apply NoDup_app; [exact H | repeat constructor; simpl; tauto |].
  intros x Hx [<-|[]]. apply str_in_In in Hx. congruence.
Qed.

(** The headers of an answer, as [proxy] reads them, keep the invariant
    of their class whatever lines the answer has. *)
Lemma headers_of_wf (lines : list (string * string)) :
  Requests.wf (Urllib3.headers_of lines).
Proof.
  unfold Urllib3.headers_of.
  assert (H : forall d, Requests.wf d ->
            Requests.wf (fold_left (fun d kv => Urllib3.add d (fst kv) (snd kv))
                                   lines d)).
  { induction lines as [|line lines IH]; simpl; intros d Hd; [exact Hd|].
    apply IH. now apply add_wf. }
  apply H. constructor.
Qed.




(** [dict] keeps the place of the first pair of a name and the value of
    the last. *)
Example dict_of_repeated_pairs :
  Py.dict_of_pairs [("Set-Cookie", "a=1"); ("X-Id", "7"); ("Set-Cookie", "b=2")]
  = [("Set-Cookie", "b=2"); ("X-Id", "7")].
Proof. reflexivity. Qed.

(* ================================================================= *)
(** ** Logging *)

(** C8, as stated, fails: a byte that does not decode leaves nothing in
    the log; what is printed for the body [ff] is what is printed for
    the empty body. *)
Lemma undecodable_byte_leaves_no_mark :
  Py.decode_utf8_ignore [xff] = []
  /\ printed (initial_world unreachable)
       (fst (proxy "sync" (sync_with [] [xff]) (initial_world unreachable)))
     = printed (initial_world unreachable)
         (fst (proxy "sync" (sync_with [] []) (initial_world unreachable))).
Proof. split; vm_compute; reflexivity. Qed.

Lemma decode_invalid_start (b : byte) (rest : Py.bytes) :
  invalid_start b = true ->
  Py.decode_utf8_ignore (b :: rest) = Py.decode_utf8_ignore rest.
Proof. destruct b; intros H; (discriminate H || reflexivity). Qed.

Lemma subsequence_empty {A} (t : list A) : subsequence [] t.
Proof.
  induction t as [|x t IH]; [constructor | now apply subsequence_skip].
Qed.

(** What is decoded is the strict decoding of the bytes that are not
    skipped, and these are bytes of the body, in their order. *)
Lemma decode_not_ignored_upto (n : nat) : forall s : Py.bytes,
  length s <= n ->
  Py.decode_utf8 (Py.not_ignored s) = Some (Py.decode_utf8_ignore s)
  /\ subsequence (Py.not_ignored s) s.
Proof.
  induction n as [|n IH]; intros s Hlen.
  - destruct s; [|simpl in Hlen; lia]. split; [reflexivity | constructor].
  - destruct s as [|b0 r0]; [split; [reflexivity | constructor]|].
    simpl in Hlen.
    assert (H0 : Py.decode_utf8 (Py.not_ignored r0)
                 = Some (Py.decode_utf8_ignore r0)
                 /\ subsequence (Py.not_ignored r0) r0) by (apply IH; lia).
    destruct H0 as [D0 S0].
    cbn [Py.not_ignored Py.decode_utf8_ignore].
    destruct (Py.width b0) as [|[|[|[|[|w]]]]] eqn:W.
    + split; [exact D0 | now apply subsequence_skip].
    + split; [|now apply subsequence_keep].
      cbn [Py.decode_utf8]. now rewrite W, D0.
    + destruct r0 as [|b1 r1];
        [split; [reflexivity | apply subsequence_empty]|].
      simpl in Hlen.
      destruct (IH r1 ltac:(lia)) as [D1 S1].
      destruct (Py.second_ok b0 b1) eqn:E1.
      * split; [|now repeat apply subsequence_keep].
        cbn [Py.decode_utf8]. now rewrite W, E1, D1.
      * split; [exact D0 | now apply subsequence_skip].
    + destruct r0 as [|b1 r1];
        [split; [reflexivity | apply subsequence_empty]|].
      simpl in Hlen.
      destruct (IH r1 ltac:(lia)) as [D1 S1].
      destruct (Py.second_ok b0 b1) eqn:E1;
        [|split; [exact D0 | now apply subsequence_skip]].
      destruct r1 as [|b2 r2];
        [split; [reflexivity | apply subsequence_empty]|].
      simpl in Hlen.
      destruct (IH r2 ltac:(lia)) as [D2 S2].
      destruct (Py.is_continuation b2) eqn:E2.
      * split; [|now repeat apply subsequence_keep].
        cbn [Py.decode_utf8]. now rewrite W, E1, E2, D2.
      * split; [exact D1 | do 2 apply subsequence_skip; exact S1].
    + destruct r0 as [|b1 r1];
        [split; [reflexivity | apply subsequence_empty]|].
      simpl in Hlen.
      destruct (IH r1 ltac:(lia)) as [D1 S1].
      destruct (Py.second_ok b0 b1) eqn:E1;
        [|split; [exact D0 | now apply subsequence_skip]].
      destruct r1 as [|b2 r2];
        [split; [reflexivity | apply subsequence_empty]|].
      simpl in Hlen.
      destruct (IH r2 ltac:(lia)) as [D2 S2].
      destruct (Py.is_continuation b2) eqn:E2;
        [|split; [exact D1 | do 2 apply subsequence_skip; exact S1]].
      destruct r2 as [|b3 r3];
        [split; [reflexivity | apply subsequence_empty]|].
      simpl in Hlen.
      destruct (IH r3 ltac:(lia)) as [D3 S3].
      destruct (Py.is_continuation b3) eqn:E3.
      * split; [|now repeat apply subsequence_keep].
        cbn [Py.decode_utf8]. now rewrite W, E1, E2, E3, D3.
      * split; [exact D2 | do 3 apply subsequence_skip; exact S2].
    + split; [exact D0 | now apply subsequence_skip].
Qed.

Lemma decode_not_ignored (s : Py.bytes) :
  Py.decode_utf8 (Py.not_ignored s) = Some (Py.decode_utf8_ignore s)
  /\ subsequence (Py.not_ignored s) s.
Proof. exact (decode_not_ignored_upto (length s) s (le_n _)). Qed.

Lemma proxy_printed (path : string) (request : Werkzeug.Request) (w : World) :
  printed w (fst (proxy path request w))
  = (incoming_log (MATRIX_BASE w) path request
     ++ match forward_headers request with
        | Py.Return headers =>
            match upstream w (outbound (MATRIX_BASE w) path request headers) with
            | Py.Return resp => response_log resp
            | Py.Raise _ => []
            end
        | Py.Raise _ => []
        end)%list.
Proof.
  rewrite proxy_run. cbv zeta.
  destruct (forward_headers request) as [headers|e]; simpl.
  - destruct (upstream w _); simpl.
    + apply printed_answered.
    + rewrite app_nil_r. apply printed_called.
  - rewrite app_nil_r. apply printed_logged.
Qed.

(** C8, amended: logging ends no run.  The inbound block is printed in
    full; its body entry holds the strict decoding of the body with the
    bytes that do not decode left out, and nothing in their place (a
    byte that cannot begin a UTF-8 sequence, for one, is skipped); the
    bytes sent on are those of the body; and from a CGI environ they
    are sent. *)
Theorem logging_tolerates_undecodable_body
    (path : string) (request : Werkzeug.Request) (w : World) :
  (exists rest,
      printed w (fst (proxy path request w))
      = (incoming_log (MATRIX_BASE w) path request ++ rest)%list)
  /\ In (txt "Body: " ++ Py.decode_utf8_ignore (Werkzeug.get_data request))%list
        (incoming_log (MATRIX_BASE w) path request)
  /\ (Py.decode_utf8 (Py.not_ignored (Werkzeug.get_data request))
      = Some (Py.decode_utf8_ignore (Werkzeug.get_data request))
      /\ subsequence (Py.not_ignored (Werkzeug.get_data request))
                     (Werkzeug.get_data request))
  /\ (forall b rest,
        invalid_start b = true ->
        Py.decode_utf8_ignore (b :: rest) = Py.decode_utf8_ignore rest)
  /\ Forall (fun out => Requests.data out = Werkzeug.get_data request)
            (issued w (fst (proxy path request w)))
  /\ (cgi_environ (Werkzeug.environ (Werkzeug.headers request)) = true ->
      exists out, issued w (fst (proxy path request w)) = [out]).
Proof.
  split; [rewrite proxy_printed; eexists; reflexivity|].
  split.
  { unfold incoming_log. apply in_or_app. right. apply in_or_app. right.
    left. reflexivity. }
  split; [apply decode_not_ignored|].
  split; [exact decode_invalid_start|].
  split; [|apply proxy_calls].
  rewrite proxy_issued.
  destruct (forward_headers request); constructor; [reflexivity | constructor].
Qed.

Lemma logging_tolerates_undecodable_body_witness :
  Py.decode_utf8_ignore [x68; xff; x69] = Py.decode_utf8_ignore [x68; x69]
  /\ exists out,
       issued (initial_world unreachable)
         (fst (proxy "sync" (sync_with [] [x68; xff; x69])
                 (initial_world unreachable)))
       = [out]
       /\ Requests.data out = [x68; xff; x69].
Proof.
  destruct (logging_tolerates_undecodable_body "sync"
              (sync_with [] [x68; xff; x69]) (initial_world unreachable))
    as [_ [_ [_ [Hskip [Hall Hcalls]]]]].
  split.
  - change (Py.decode_utf8_ignore [x68; xff; x69])
      with (104%N :: Py.decode_utf8_ignore [xff; x69]).
    rewrite (Hskip xff [x69] eq_refl). reflexivity.
  - destruct (Hcalls eq_refl) as [out Hout]. exists out.
    split; [exact Hout|]. rewrite Hout in Hall. exact (Forall_inv Hall).
Defined.

(* ================================================================= *)
(** ** One request and the next *)

Lemma proxy_outcome (path : string) (request : Werkzeug.Request) (w : World) :
  snd (proxy path request w)
  = match forward_headers request with
    | Py.Return headers =>
        match upstream w (outbound (MATRIX_BASE w) path request headers) with
        | Py.Return resp => Py.Return (relay resp)
        | Py.Raise e => Py.Raise e
        end
    | Py.Raise e => Py.Raise e
    end.
Proof.
  rewrite proxy_run. cbv zeta.
  destruct (forward_headers request) as [headers|e]; [|reflexivity].
  destruct (upstream w _); reflexivity.
Qed.

(** A run writes to [stdout] and to the record of calls, behind what is
    there, and to nothing else. *)
Lemma proxy_frame (path : string) (request : Werkzeug.Request) (w : World) :
  MATRIX_BASE (fst (proxy path request w)) = MATRIX_BASE w
  /\ upstream (fst (proxy path request w)) = upstream w
  /\ stdout (fst (proxy path request w))
     = (stdout w ++ printed w (fst (proxy path request w)))%list
  /\ sent (fst (proxy path request w))
     = (sent w ++ issued w (fst (proxy path request w)))%list.
Proof.
  rewrite proxy_printed, proxy_issued. rewrite proxy_run. cbv zeta.
  destruct (forward_headers request) as [headers|e].
  - destruct (upstream w _);
      cbn [fst MATRIX_BASE upstream stdout sent logged called];
      repeat split; now rewrite ?app_nil_r, ?app_assoc.
  - cbn [fst MATRIX_BASE upstream stdout sent logged called].
    repeat split; now rewrite ?app_nil_r.
Qed.

(** C9: a run leaves the global and the upstream as they were and only
    adds to the output and to the calls; and two runs on one request,
    in worlds with one base URL whose upstreams answer the call alike,
    whatever else has happened in them, end alike, make the same call
    and print the same. *)
Theorem proxy_stateless
    (path : string) (request : Werkzeug.Request) (w1 w2 : World) :
  MATRIX_BASE w1 = MATRIX_BASE w2 ->
  (forall out, In out (issued w1 (fst (proxy path request w1))) ->
               upstream w1 out = upstream w2 out) ->
  snd (proxy path request w1) = snd (proxy path request w2)
  /\ issued w1 (fst (proxy path request w1))
     = issued w2 (fst (proxy path request w2))
  /\ printed w1 (fst (proxy path request w1))
     = printed w2 (fst (proxy path request w2))
  /\ MATRIX_BASE (fst (proxy path request w1)) = MATRIX_BASE w1
  /\ upstream (fst (proxy path request w1)) = upstream w1
  /\ stdout (fst (proxy path request w1))
     = (stdout w1 ++ printed w1 (fst (proxy path request w1)))%list
  /\ sent (fst (proxy path request w1))
     = (sent w1 ++ issued w1 (fst (proxy path request w1)))%list.
Proof.
  intros Hbase Hup.
  destruct (proxy_frame path request w1) as [F1 [F2 [F3 F4]]].
  repeat split; try assumption; clear F1 F2 F3 F4;
    rewrite proxy_issued in Hup;
    rewrite ?proxy_outcome, ?proxy_issued, ?proxy_printed; rewrite <- Hbase;
    destruct (forward_headers request) as [headers|e]; try reflexivity;
    rewrite <- (Hup _ (or_introl eq_refl)); reflexivity.
Qed.

(** The same request, handled once and then again in the world the
    first run has left. *)
Lemma proxy_stateless_witness :
  snd (proxy room_path send_message (initial_world (answer gzip_answer)))
  = snd (proxy room_path send_message
           (fst (proxy room_path send_message
                   (initial_world (answer gzip_answer)))))
  /\ issued (initial_world (answer gzip_answer))
       (fst (proxy room_path send_message (initial_world (answer gzip_answer))))
     = issued
         (fst (proxy room_path send_message (initial_world (answer gzip_answer))))
         (fst (proxy room_path send_message
                 (fst (proxy room_path send_message
                         (initial_world (answer gzip_answer)))))).
Proof.
  destruct (proxy_stateless room_path send_message
              (initial_world (answer gzip_answer))
              (fst (proxy room_path send_message
                      (initial_world (answer gzip_answer))))
              eq_refl (fun out _ => eq_refl))
    as [Hres [Hcalls _]].
  split; [exact Hres | exact Hcalls].
Defined.

(* ================================================================= *)
(** ** The two scenarios of the specification *)

(** A message is posted: the upstream is called with the method, the
    path, the body and the [Authorization] header of the request, and
    with neither [Host] nor [Content-Length]. *)
Example scenario_send_message :
  issued (initial_world (answer gzip_answer))
    (fst (proxy room_path send_message (initial_world (answer gzip_answer))))
  = [ {| Requests.method := "POST";
         Requests.url :=
           "https://disaccord.cc/_matrix/client/v3/rooms/!abc:example.org/send/m.room.message/1";
         Requests.headers :=
           [("Authorization", "Bearer tok123");
            ("Content-Type", "application/json")];
         Requests.data :=
           [x7b; x22; x62; x6f; x64; x79; x22; x3a; x22; x68; x69; x22; x7d];
         Requests.params := [];
         Requests.timeout := 30 |} ].
Proof. vm_compute. reflexivity. Qed.

(** The upstream answers 200 with [Content-Encoding: gzip]: the caller
    gets the status and the body, and no [Content-Encoding]. *)
Example scenario_gzip_answer :
  snd (proxy room_path send_message (initial_world (answer gzip_answer)))
  = Py.Return {| Flask.response := [x7b; x7d];
                 Flask.status := 200;
                 Flask.headers := [("Content-Type", "application/json")] |}.
Proof. vm_compute. reflexivity. Qed.

(* ================================================================= *)
(** ** More on the decoding of the body *)

Lemma option_map_some {A B} (f : A -> B) (o : option A) (y : B) :
  option_map f o = Some y -> exists x, o = Some x /\ y = f x.
Proof.
  destruct o as [x|]; simpl; [|discriminate].
  intros [= <-]. now exists x.
Qed.

(** The text the [ignore] decoder gives is no longer than the bytes, and
    on bytes that decode strictly it is their strict decoding. *)
Lemma decode_ignore_upto (n : nat) : forall s : Py.bytes,
  length s <= n ->
  length (Py.decode_utf8_ignore s) <= length s
  /\ forall t, Py.decode_utf8 s = Some t -> Py.decode_utf8_ignore s = t.
Proof.
  induction n as [|n IH]; intros s Hlen.
  - destruct s; [|simpl in Hlen; lia].
    split; [simpl; lia | now intros t [= <-]].
  - destruct s as [|b0 r0]; [split; [simpl; lia | now intros t [= <-]]|].
    cbn [length] in Hlen.
    destruct (IH r0 ltac:(lia)) as [L0 A0].
    cbn [Py.decode_utf8_ignore Py.decode_utf8].
    destruct (Py.width b0) as [|[|[|[|[|w]]]]] eqn:W.
    + split; [cbn [length] in *; lia | discriminate].
    + split; [cbn [length] in *; lia|].
      intros t H. apply option_map_some in H as [t0 [H ->]].
      f_equal. now apply A0.
    + destruct r0 as [|b1 r1]; [split; [cbn [length] in *; lia | discriminate]|].
      cbn [length] in Hlen, L0.
      destruct (IH r1 ltac:(lia)) as [L1 A1].
      destruct (Py.second_ok b0 b1).
      * split; [cbn [length] in *; lia|].
        intros t H. apply option_map_some in H as [t0 [H ->]].
        f_equal. now apply A1.
      * split; [cbn [length] in *; lia | discriminate].
    + destruct r0 as [|b1 r1]; [split; [cbn [length] in *; lia | discriminate]|].
      cbn [length] in Hlen, L0.
      destruct (IH r1 ltac:(lia)) as [L1 A1].
      destruct r1 as [|b2 r2].
      { destruct (Py.second_ok b0 b1);
          (split; [cbn [length] in *; lia | discriminate]). }
      cbn [length] in Hlen, L0, L1.
      destruct (IH r2 ltac:(lia)) as [L2 A2].
      destruct (Py.second_ok b0 b1);
        [|split; [cbn [length] in *; lia | discriminate]].
      destruct (Py.is_continuation b2); cbn [andb].
      * split; [cbn [length] in *; lia|].
        intros t H. apply option_map_some in H as [t0 [H ->]].
        f_equal. now apply A2.
      * split; [cbn [length] in *; lia | discriminate].
    + destruct r0 as [|b1 r1]; [split; [cbn [length] in *; lia | discriminate]|].
      cbn [length] in Hlen, L0.
      destruct (IH r1 ltac:(lia)) as [L1 A1].
      destruct r1 as [|b2 r2].
      { destruct (Py.second_ok b0 b1);
          (split; [cbn [length] in *; lia | discriminate]). }
      cbn [length] in Hlen, L0, L1.
      destruct (IH r2 ltac:(lia)) as [L2 A2].
      destruct r2 as [|b3 r3].
      { destruct (Py.second_ok b0 b1); [destruct (Py.is_continuation b2)|];
          (split; [cbn [length] in *; lia | discriminate]). }
      cbn [length] in Hlen, L0, L1, L2.
      destruct (IH r3 ltac:(lia)) as [L3 A3].
      destruct (Py.second_ok b0 b1);
        [|split; [cbn [length] in *; lia | discriminate]].
      destruct (Py.is_continuation b2); cbn [andb];
        [|split; [cbn [length] in *; lia | discriminate]].
      destruct (Py.is_continuation b3).
      * split; [cbn [length] in *; lia|].
        intros t H. apply option_map_some in H as [t0 [H ->]].
        f_equal. now apply A3.
      * split; [cbn [length] in *; lia | discriminate].
    + split; [cbn [length] in *; lia | discriminate].
Qed.

Lemma decode_ascii_prefix (pre rest : Py.bytes) :
  Forall (fun b => (Byte.to_N b < 128)%N) pre ->
  Py.decode_utf8_ignore (pre ++ rest)%list
  = (map Byte.to_N pre ++ Py.decode_utf8_ignore rest)%list.
Proof.
  induction 1 as [|b pre Hb Hpre IH]; [reflexivity|].
  cbn [app map Py.decode_utf8_ignore].
  unfold Py.width. apply N.ltb_lt in Hb. rewrite Hb. now rewrite IH.
Qed.

(** The body entry of the inbound block is always printed. *)
Lemma body_entry_printed (path : string) (request : Werkzeug.Request)
    (w : World) :
  In (txt "Body: " ++ Py.decode_utf8_ignore (Werkzeug.get_data request))%list
     (printed w (fst (proxy path request w))).
Proof.
  rewrite proxy_printed. apply in_or_app. left.
  unfold incoming_log. apply in_or_app. right. apply in_or_app. right.
  left. reflexivity.
Qed.

(** X8: a body of ASCII bytes is printed byte for byte: its entry in the
    inbound block is [Body: ] followed by the bytes. *)
Theorem ascii_body_logged_verbatim
    (path : string) (request : Werkzeug.Request) (w : World) :
  Forall (fun b => (Byte.to_N b < 128)%N) (Werkzeug.get_data request) ->
  In (txt "Body: " ++ map Byte.to_N (Werkzeug.get_data request))%list
     (printed w (fst (proxy path request w))).
Proof.
  intros Hascii.
  pose proof (decode_ascii_prefix (Werkzeug.get_data request) [] Hascii) as H.
  rewrite !app_nil_r in H. rewrite <- H. apply body_entry_printed.
Qed.

Lemma ascii_body_logged_verbatim_witness :
  In (txt "Body: hi")
     (printed (initial_world unreachable)
        (fst (proxy "sync" (sync_with [] [x68; x69]) (initial_world unreachable)))).
Proof.
  apply (ascii_body_logged_verbatim "sync" (sync_with [] [x68; x69])
           (initial_world unreachable)).
  vm_compute. repeat (constructor; [reflexivity|]). constructor.
Defined.

(** X9: a body that is valid UTF-8 is printed as the text it encodes. *)
Theorem valid_body_logged_exactly
    (path : string) (request : Werkzeug.Request) (w : World) (t : Py.text) :
  Py.decode_utf8 (Werkzeug.get_data request) = Some t ->
  In (txt "Body: " ++ t)%list (printed w (fst (proxy path request w))).
Proof.
  intros Hvalid.
  destruct (decode_ignore_upto _ (Werkzeug.get_data request) (le_n _))
    as [_ Hagree].
  rewrite <- (Hagree t Hvalid). apply body_entry_printed.
Qed.

Lemma valid_body_logged_exactly_witness :
  In (txt "Body: " ++ [8364%N])%list
     (printed (initial_world unreachable)
        (fst (proxy "sync" (sync_with [] [xe2; x82; xac])
                (initial_world unreachable)))).
Proof.
  apply (valid_body_logged_exactly "sync" (sync_with [] [xe2; x82; xac])
           (initial_world unreachable)).
  reflexivity.
Defined.

(** X10: the text printed for a body never has more code points than
    the body has bytes. *)
Theorem logged_body_not_longer (request : Werkzeug.Request) :
  length (Py.decode_utf8_ignore (Werkzeug.get_data request))
  <= length (Werkzeug.get_data request).
Proof.
  exact (proj1 (decode_ignore_upto _ (Werkzeug.get_data request) (le_n _))).
Qed.

(* ================================================================= *)
(** ** More on the two log blocks *)

Lemma in_incoming_log (base path : string) (request : Werkzeug.Request)
    (kv : string * string) :
  In kv (Werkzeug.items (Werkzeug.headers request)) ->
  In (header_line kv) (incoming_log base path request).
Proof.
  intros Hin. unfold incoming_log. apply in_or_app. right.
  apply in_or_app. left. now apply in_map.
Qed.

(** X2: every header [request.headers] yields is printed with its
    value, the ones that are not forwarded too, whatever becomes of the
    run afterwards. *)
Theorem request_headers_logged
    (path : string) (request : Werkzeug.Request) (w : World)
    (name value : string) :
  In (name, value) (Werkzeug.items (Werkzeug.headers request)) ->
  In (txt ("  " ++ name ++ ": " ++ value))
     (printed w (fst (proxy path request w))).
Proof.
  intros Hin. rewrite proxy_printed. apply in_or_app. left.
  exact (in_incoming_log _ _ _ (name, value) Hin).
Qed.

Lemma request_headers_logged_witness :
  In (txt "  Authorization: Bearer tok123")
     (printed (initial_world unreachable)
        (fst (proxy room_path send_message (initial_world unreachable))))
  /\ In (txt "  Host: localhost:5006")
        (printed (initial_world unreachable)
           (fst (proxy room_path send_message (initial_world unreachable)))).
Proof.
  split.
  - apply (request_headers_logged room_path send_message
             (initial_world unreachable) "Authorization" "Bearer tok123").
    vm_compute. tauto.
  - apply (request_headers_logged room_path send_message
             (initial_world unreachable) "Host" "localhost:5006").
    vm_compute. tauto.
Defined.

(** X3: once the upstream has answered, every header of the answer is
    printed with its value, the ones that are not relayed too. *)
Theorem response_headers_logged
    (path : string) (request : Werkzeug.Request) (w : World)
    (out : Requests.Request) (resp : Requests.Response)
    (name value : string) :
  issued w (fst (proxy path request w)) = [out] ->
  upstream w out = Py.Return resp ->
  In (name, value) (Requests.items (Requests.resp_headers resp)) ->
  In (txt ("  " ++ name ++ ": " ++ value))
     (printed w (fst (proxy path request w))).
Proof.
  intros Hout Hup Hin.
  destruct (proxy_answered path request w out Hout) as [_ [_ Hlog]].
  rewrite Hup in Hlog. rewrite Hlog. apply in_or_app. right.
  unfold response_log. apply in_or_app. right. apply in_or_app. left.
  exact (in_map header_line _ (name, value) Hin).
Qed.

Lemma response_headers_logged_witness :
  In (txt "  Content-Encoding: gzip")
     (printed (initial_world (answer gzip_answer))
        (fst (proxy room_path send_message (initial_world (answer gzip_answer))))).
Proof.
  apply (response_headers_logged room_path send_message
           (initial_world (answer gzip_answer))
           (outbound "https://disaccord.cc" room_path send_message
              [("Authorization", "Bearer tok123");
               ("Content-Type", "application/json")])
           gzip_answer "Content-Encoding" "gzip").
  - vm_compute. reflexivity.
  - reflexivity.
  - vm_compute. tauto.
Defined.



(* ================================================================= *)
(** ** More on the call *)

(** X1: a run calls the upstream at most once, never without the
    timeout of 30, and a run that returns has called it. *)
Theorem one_call_with_timeout
    (path : string) (request : Werkzeug.Request) (w : World) :
  length (issued w (fst (proxy path request w))) <= 1
  /\ Forall (fun out => Requests.timeout out = 30%Z)
            (issued w (fst (proxy path request w)))
  /\ (forall r, snd (proxy path request w) = Py.Return r ->
                length (issued w (fst (proxy path request w))) = 1).
Proof.
  split; [|split].
  - rewrite proxy_issued. destruct (forward_headers request); simpl; lia.
  - rewrite proxy_issued.
    destruct (forward_headers request); constructor; [reflexivity|constructor].
  - intros r Hr. destruct (proxy_returned path request w r Hr)
      as [out [resp [Hout _]]]. now rewrite Hout.
Qed.

(* ================================================================= *)
(** ** More on the header set that is forwarded *)

Lemma dict_get_absent {V} (d : Py.dict V) (k : string) :
  ~ In k (Py.dict_keys d) -> Py.dict_get d k = None.
Proof.
  induction d as [|[k0 v0] d IH]; simpl; [reflexivity|].
  intros H. destruct (String.eqb_spec k0 k) as [->|]; [tauto|].
  apply IH. tauto.
Qed.

Lemma dict_get_present {V} (d : Py.dict V) (k : string) (v : V) :
  Py.dict_get d k = Some v -> In k (Py.dict_keys d).
Proof.
  induction d as [|[k0 v0] d IH]; simpl; [discriminate|].
  destruct (String.eqb_spec k0 k) as [->|]; [now left|].
  intros H. right. now apply IH.
Qed.

Lemma dict_get_pop {V} (d : Py.dict V) (x k : string) :
  NoDup (Py.dict_keys d) ->
  Py.dict_get (Py.dict_pop d x) k
  = if String.eqb x k then None else Py.dict_get d k.
Proof.
  induction d as [|[k0 v0] d IH]; simpl; intros Hnd.
  - now destruct (String.eqb x k).
  - inversion Hnd as [|? ? Hnot Hnd']; subst.
    destruct (String.eqb_spec k0 x) as [->|Hne].
    + destruct (String.eqb_spec x k) as [->|]; [|reflexivity].
      now apply dict_get_absent.
    + simpl. rewrite (IH Hnd').
      destruct (String.eqb_spec k0 k) as [->|]; [|reflexivity].
      destruct (String.eqb_spec x k) as [->|]; [congruence | reflexivity].
Qed.

(** In the dict built from a mapping each key holds what the mapping
    gives for it. *)
Lemma dict_merge_get {V} (g : string -> Py.result V) (ks : list string) :
  forall (d d' : Py.dict V),
    Py.dict_merge d ks g = Py.Return d' ->
    forall k,
      (In k ks -> exists v, g k = Py.Return v /\ Py.dict_get d' k = Some v)
      /\ (~ In k ks -> Py.dict_get d' k = Py.dict_get d k).
Proof.
  induction ks as [|k0 ks IH]; simpl; intros d d' H k.
  - inversion H; subst. split; [contradiction | reflexivity].
  - destruct (g k0) as [v0|e] eqn:G; [|discriminate].
    destruct (IH _ _ H k) as [Hin Hout].
    destruct (in_dec string_dec k ks) as [Hk|Hk].
    + split; [intros _; now apply Hin | tauto].
    + split.
      * intros [<-|Hk']; [|contradiction].
        exists v0. split; [exact G|].
        rewrite (Hout Hk), dict_get_setitem. now rewrite String.eqb_refl.
      * intros Hno. rewrite (Hout Hk), dict_get_setitem.
        destruct (String.eqb_spec k0 k) as [->|]; [tauto | reflexivity].
Qed.

(** X7: whatever the environ, a header set that goes out holds under a
    name the value [request.headers[name]] gives, for the names
    [request.headers] yields other than [Host] and [Content-Length],
    and holds nothing under any other name. *)
Theorem forwarded_value_is_lookup
    (path : string) (request : Werkzeug.Request) (w : World) :
  Forall (fun out =>
            forall k v,
              Py.dict_get (Requests.headers out) k = Some v
              <-> In k (Werkzeug.keys (Werkzeug.headers request))
                  /\ k <> "Host" /\ k <> "Content-Length"
                  /\ Werkzeug.getitem (Werkzeug.headers request) k
                     = Py.Return v)
         (issued w (fst (proxy path request w))).
Proof.
  rewrite proxy_issued.
  destruct (forward_headers request) as [headers|e] eqn:E; [|constructor].
  constructor; [|constructor]. simpl. intros k v.
  destruct (forward_headers_names request headers E) as [_ Hkeys].
  unfold forward_headers, Py.dict_of_mapping in E.
  destruct (Py.dict_merge _ _ _) as [d|e] eqn:M; [|discriminate].
  injection E as <-.
  pose proof (dict_merge_keys _ _ _ _ M) as [_ Hnd].
  specialize (Hnd (NoDup_nil _)).
  pose proof (dict_merge_get _ _ _ _ M k) as [Hin _].
  assert (Hget : Py.dict_get
                   (Py.dict_pop (Py.dict_pop d "Host") "Content-Length") k
                 = if String.eqb "Content-Length" k then None
                   else if String.eqb "Host" k then None
                        else Py.dict_get d k).
  { rewrite dict_get_pop by now apply dict_pop_NoDup.
    now rewrite dict_get_pop by exact Hnd. }
  split.
  - intros H. pose proof (dict_get_present _ _ _ H) as Hk.
    apply Hkeys in Hk as [Hk [H1 H2]].
    repeat split; try assumption.
    rewrite Hget in H.
    destruct (String.eqb_spec "Content-Length" k); [congruence|].
    destruct (String.eqb_spec "Host" k); [congruence|].
    destruct (Hin Hk) as [v' [Hg Hd]]. congruence.
  - intros [Hk [H1 [H2 Hg]]]. rewrite Hget.
    destruct (String.eqb_spec "Content-Length" k); [congruence|].
    destruct (String.eqb_spec "Host" k); [congruence|].
    destruct (Hin Hk) as [v' [Hg' Hd]]. congruence.
Qed.

(** X6: where [request.headers] yields neither [Host] nor
    [Content-Length] the two pops take nothing away and raise nothing:
    the header set goes out as it came in. *)
Theorem nothing_to_pop
    (path : string) (request : Werkzeug.Request) (w : World) :
  cgi_environ (Werkzeug.environ (Werkzeug.headers request)) = true ->
  NoDup (Py.dict_keys (Werkzeug.environ (Werkzeug.headers request))) ->
  ~ In "Host" (Werkzeug.keys (Werkzeug.headers request)) ->
  ~ In "Content-Length" (Werkzeug.keys (Werkzeug.headers request)) ->
  exists out,
    issued w (fst (proxy path request w)) = [out]
    /\ Requests.headers out = Werkzeug.items (Werkzeug.headers request).
Proof.
  intros Hcgi Hnd Hhost Hlen. rewrite proxy_issued.
  rewrite (forward_headers_exact request Hcgi Hnd).
  eexists. split; [reflexivity|]. simpl.
  apply forallb_filter_id. apply forallb_forall. intros [k v] Hin.
  unfold forwarded. simpl.
  assert (Hk : In k (Werkzeug.keys (Werkzeug.headers request))).
  { unfold Werkzeug.keys. apply in_map_iff. now exists (k, v). }
  destruct (String.eqb_spec k "Host") as [->|]; [contradiction|].
  destruct (String.eqb_spec k "Content-Length") as [->|]; [contradiction|].
  reflexivity.
Qed.

Lemma nothing_to_pop_witness :
  exists out,
    issued (initial_world unreachable)
      (fst (proxy "sync" (sync_with [("authorization", "Bearer tok123")] [])
              (initial_world unreachable)))
    = [out]
    /\ Requests.headers out = [("Authorization", "Bearer tok123")].
Proof.
  apply (nothing_to_pop "sync"
           (sync_with [("authorization", "Bearer tok123")] [])
           (initial_world unreachable)).
  - reflexivity.
  - vm_compute. repeat (constructor; [simpl; intuition discriminate|]).
    constructor.
  - vm_compute. intuition discriminate.
  - vm_compute. intuition discriminate.
Defined.

Lemma is_cased_upper (c : ascii) : Py.is_cased (Py.chr_upper c) = Py.is_cased c.
Proof. destruct c as [[] [] [] [] [] [] [] []]; reflexivity. Qed.

Lemma title_from_idem (b : bool) (s : string) :
  Py.title_from b (Py.title_from b s) = Py.title_from b s.
Proof.
  revert b; induction s as [|c r IH]; intros b; simpl; [reflexivity|].
  destruct b.
  - now rewrite chr_lower_idem, is_cased_lower, IH.
  - now rewrite chr_upper_idem, is_cased_upper, IH.
Qed.

(** X14: every header name that goes out is in title case, however the
    environ spells the variable it comes from. *)
Theorem forwarded_names_titled
    (path : string) (request : Werkzeug.Request) (w : World) :
  Forall (fun out =>
            forall k, In k (Py.dict_keys (Requests.headers out)) ->
                      Py.title k = k)
         (issued w (fst (proxy path request w))).
Proof.
  rewrite proxy_issued.
  destruct (forward_headers request) as [headers|e] eqn:E; [|constructor].
  constructor; [|constructor]. simpl. intros k Hk.
  destruct (forward_headers_names request headers E) as [_ Hkeys].
  apply Hkeys in Hk as [Hk _].
  apply keys_titled in Hk as [y ->]. apply title_from_idem.
Qed.

Lemma append_cancel (a x y : string) : a ++ x = a ++ y -> x = y.
Proof.
  induction a as [|c a IH]; simpl; [auto|].
  intros [= H]. now apply IH.
Qed.

(** X11: the path goes into the URL as it is: two runs in one world
    that call the same URL were given the same path. *)
Theorem upstream_url_tells_path
    (path1 path2 : string) (request1 request2 : Werkzeug.Request) (w : World)
    (out1 out2 : Requests.Request) :
  issued w (fst (proxy path1 request1 w)) = [out1] ->
  issued w (fst (proxy path2 request2 w)) = [out2] ->
  Requests.url out1 = Requests.url out2 ->
  path1 = path2.
Proof.
  rewrite !proxy_issued.
  destruct (forward_headers request1); [|discriminate].
  destruct (forward_headers request2); [|discriminate].
  intros [= <-] [= <-]. simpl. intros H.
  apply append_cancel in H.
  exact (append_cancel "/_matrix/client/v3/" _ _ H).
Qed.

Lemma upstream_url_tells_path_witness : "sync" = "sync".
Proof.
  exact (upstream_url_tells_path "sync" "sync"
           (sync_with [] []) (sync_with [("X-A", "1")] [x41])
           (initial_world unreachable)
           (outbound "https://disaccord.cc" "sync" (sync_with [] []) [])
           (outbound "https://disaccord.cc" "sync"
              (sync_with [("X-A", "1")] [x41]) [("X-A", "1")])
           ltac:(vm_compute; reflexivity) ltac:(vm_compute; reflexivity)
           eq_refl).
Defined.

(* ================================================================= *)
(** ** One run after another *)

(** X12: of two runs, the second in the world the first has left, the
    calls and the output follow each other in the order of the runs,
    behind what was there, and the base URL and the upstream are as
    they were. *)
Theorem runs_in_sequence
    (path1 path2 : string) (request1 request2 : Werkzeug.Request) (w : World) :
  sent (fst (proxy path2 request2 (fst (proxy path1 request1 w))))
  = (sent w
     ++ issued w (fst (proxy path1 request1 w))
     ++ issued (fst (proxy path1 request1 w))
          (fst (proxy path2 request2 (fst (proxy path1 request1 w)))))%list
  /\ stdout (fst (proxy path2 request2 (fst (proxy path1 request1 w))))
     = (stdout w
        ++ printed w (fst (proxy path1 request1 w))
        ++ printed (fst (proxy path1 request1 w))
             (fst (proxy path2 request2 (fst (proxy path1 request1 w)))))%list
  /\ MATRIX_BASE (fst (proxy path2 request2 (fst (proxy path1 request1 w))))
     = MATRIX_BASE w
  /\ upstream (fst (proxy path2 request2 (fst (proxy path1 request1 w))))
     = upstream w.
Proof.
  destruct (proxy_frame path1 request1 w) as [B1 [U1 [O1 S1]]].
  destruct (proxy_frame path2 request2 (fst (proxy path1 request1 w)))
    as [B2 [U2 [O2 S2]]].
  repeat split.
  - rewrite S2. rewrite S1 at 1. now rewrite <- app_assoc.
  - rewrite O2. rewrite O1 at 1. now rewrite <- app_assoc.
  - congruence.
  - congruence.
Qed.
